(** * kairos: the Build reconciler

    A shallow embedding of [controllers/build_controller.go] and of the
    API types of [api/v1alpha1/build_types.go], with the properties of the
    reconcile loop, the job builder and the callback dispatcher.

    The object store, the clock and the HTTP client are the environment of
    the controller: the store is a pair of finite maps, every call of the
    controller into the environment is a function of an [Env] record that
    says what the environment answers, and every effect is written to a
    trace. *)

From Stdlib Require Import ZArith Ascii String List Lia Bool.
From stdpp Require Import base option gmap strings pretty.

Local Open Scope string_scope.
Local Open Scope Z_scope.

(** ** API types (api/v1alpha1/build_types.go) *)

Module v1alpha1.

(** [CallbackSpec] *)
Record CallbackSpec := {
  URL : string;
  AuthToken : string;
}.

(** [BuildSpec]; [Callback] is a pointer in the source, [None] is nil. *)
Record BuildSpec := {
  ContextUrl : string;
  Revision : string;
  Dockerfile : string;
  OutputImage : string;
  PushSecret : string;
  Callback : option CallbackSpec;
}.

(** [type BuildPhase string] with its four constants. The zero value of a
    fresh object is the empty string, which is none of the four. *)
Definition BuildPhase := string.
Definition BuildPhasePending : BuildPhase := "Pending".
Definition BuildPhaseRunning : BuildPhase := "Running".
Definition BuildPhaseSucceeded : BuildPhase := "Succeeded".
Definition BuildPhaseFailed : BuildPhase := "Failed".

(** [metav1.Time], as a number of nanoseconds. *)
Definition Time := Z.

(** [BuildStatus] *)
Record BuildStatus := {
  Phase : BuildPhase;
  JobRef : string;
  CallbackStatus : string;
  CompletionTime : option Time;
}.

(** [Build]: the fields of [metav1.ObjectMeta] the controller reads, the
    spec and the status. *)
Record Build := {
  Name : string;
  Namespace : string;
  UID : string;
  Spec : BuildSpec;
  Status : BuildStatus;
}.

(** The status of an object the controller has not touched yet. *)
Definition emptyStatus : BuildStatus :=
  {| Phase := EmptyString; JobRef := EmptyString;
     CallbackStatus := EmptyString; CompletionTime := None |}.

Definition withStatus (b : Build) (s : BuildStatus) : Build :=
  {| Name := Name b; Namespace := Namespace b; UID := UID b;
     Spec := Spec b; Status := s |}.

Definition setPhase (p : BuildPhase) (s : BuildStatus) : BuildStatus :=
  {| Phase := p; JobRef := JobRef s;
     CallbackStatus := CallbackStatus s; CompletionTime := CompletionTime s |}.

Definition setJobRef (r : string) (s : BuildStatus) : BuildStatus :=
  {| Phase := Phase s; JobRef := r;
     CallbackStatus := CallbackStatus s; CompletionTime := CompletionTime s |}.

Definition setCallbackStatus (c : string) (s : BuildStatus) : BuildStatus :=
  {| Phase := Phase s; JobRef := JobRef s;
     CallbackStatus := c; CompletionTime := CompletionTime s |}.

Definition setCompletionTime (t : option Time) (s : BuildStatus) : BuildStatus :=
  {| Phase := Phase s; JobRef := JobRef s;
     CallbackStatus := CallbackStatus s; CompletionTime := t |}.

End v1alpha1.
Import v1alpha1.

(** ** The Kubernetes objects the job builder fills in (batchv1, corev1) *)

Record VolumeMount := {
  vmName : string;
  MountPath : string;
  SubPath : string;
  ReadOnly : bool;
}.

Record EnvVar := { evName : string; evValue : string }.

Record Container := {
  cName : string;
  Image : string;
  Command : list string;
  Privileged : option bool;
  ContainerEnv : list EnvVar;
  VolumeMounts : list VolumeMount;
  WorkingDir : string;
}.

Inductive VolumeSource :=
| EmptyDir
| Secret (SecretName : string).

Record Volume := { vName : string; vSource : VolumeSource }.

Inductive RestartPolicy := RestartPolicyAlways | RestartPolicyOnFailure | RestartPolicyNever.

Record PodSpec := {
  podRestartPolicy : RestartPolicy;
  InitContainers : list Container;
  Containers : list Container;
  Volumes : list Volume;
}.

Record OwnerReference := {
  orAPIVersion : string;
  orKind : string;
  orName : string;
  orUID : string;
  orController : bool;
  orBlockOwnerDeletion : bool;
}.

(** [batchv1.JobStatus]: the counters are int32 in the source; the
    controller only compares them with 0. *)
Record JobStatus := {
  Succeeded : Z;
  Failed : Z;
  jobCompletionTime : option Time;
}.

(** [batchv1.Job]: [Spec.Template.Spec] is the pod specification. *)
Record Job := {
  jobName : string;
  jobNamespace : string;
  OwnerReferences : list OwnerReference;
  jobPodSpec : PodSpec;
  jobStatus : JobStatus;
}.

Definition emptyJobStatus : JobStatus :=
  {| Succeeded := 0; Failed := 0; jobCompletionTime := None |}.

(** ** Errors *)

Inductive error :=
| ErrNotFound
| ErrOther (msg : string).

(** [errors.IsNotFound] *)
Definition IsNotFound (e : error) : bool :=
  match e with ErrNotFound => true | ErrOther _ => false end.

(** [client.IgnoreNotFound] *)
Definition IgnoreNotFound (e : option error) : option error :=
  match e with
  | Some ErrNotFound => None
  | other => other
  end.

(** ** The job builder: [constructJob] *)

(** [runtime.Scheme], as far as [controllerutil.SetControllerReference]
    asks it: the API version and kind registered for [Build], if any. *)
Record Scheme := { buildGVK : option (string * string) }.

(** [controllerutil.SetControllerReference] for a [Build] owner and a fresh
    job in the owner's namespace: it fails when the scheme does not know
    the owner's type, and otherwise adds the controller reference. *)
Definition SetControllerReference (owner : Build) (j : Job) (s : Scheme) : Job + error :=
  match buildGVK s with
  | None => inr (ErrOther "no kind is registered for the type v1alpha1.Build")
  | Some (apiVersion, kind) =>
      inl {| jobName := jobName j; jobNamespace := jobNamespace j;
             OwnerReferences :=
               (OwnerReferences j ++
                [ {| orAPIVersion := apiVersion; orKind := kind;
                     orName := Name owner; orUID := UID owner;
                     orController := true; orBlockOwnerDeletion := true |} ])%list;
             jobPodSpec := jobPodSpec j; jobStatus := jobStatus j |}
  end.

Definition nl : string := String "010"%char EmptyString.
Definition dq : string := String "034"%char EmptyString.

(** [fmt.Sprintf("build-%s", name)] *)
Definition jobNameOf (name : string) : string := "build-" +:+ name.

(** The shell script of the build container: the format string of the
    source with its five [%s] filled in. *)
Definition buildScript (outputImage contextUrl dockerfile : string) : string :=
  nl +:+ "set -e" +:+ nl +:+
  "echo " +:+ dq +:+ "Building image " +:+ outputImage +:+ " from " +:+ contextUrl +:+ "..." +:+ dq +:+ nl +:+
  "buildah bud --storage-driver=vfs -f " +:+ dockerfile +:+ " -t " +:+ outputImage +:+ " ." +:+ nl +:+
  "echo " +:+ dq +:+ "Pushing image..." +:+ dq +:+ nl +:+
  "buildah push --storage-driver=vfs " +:+ outputImage +:+ nl +:+
  "echo " +:+ dq +:+ "Done!" +:+ dq +:+ nl.

(** The revision after defaulting (lines 137-140). *)
Definition defaultRevision (s : BuildSpec) : string :=
  if String.eqb (Revision s) EmptyString then "master" else Revision s.

(** The Dockerfile path after defaulting (lines 143-146). *)
Definition defaultDockerfile (s : BuildSpec) : string :=
  if String.eqb (Dockerfile s) EmptyString then "Dockerfile" else Dockerfile s.

Definition workspaceMount : VolumeMount :=
  {| vmName := "workspace"; MountPath := "/workspace";
     SubPath := EmptyString; ReadOnly := false |}.

Definition gitCloneContainer (s : BuildSpec) : Container :=
  {| cName := "git-clone"; Image := "alpine/git";
     Command := ["git"; "clone"; ContextUrl s; "/workspace"];
     Privileged := None;
     ContainerEnv := [];
     VolumeMounts := [workspaceMount];
     WorkingDir := EmptyString |}.

Definition buildahContainer (script : string) (mounts : list VolumeMount) : Container :=
  {| cName := "buildah"; Image := "quay.io/buildah/stable";
     Command := ["/bin/sh"; "-c"; script];
     Privileged := Some true;
     ContainerEnv := [ {| evName := "STORAGE_DRIVER"; evValue := "vfs" |} ];
     VolumeMounts := mounts;
     WorkingDir := "/workspace" |}.

(** [constructJob]. The local [revision] is computed as in the source; no
    field of the job reads it. *)
Definition constructJob (scheme : Scheme) (build : Build) : Job + error :=
  let jobName := jobNameOf (Name build) in
  let revision := defaultRevision (Spec build) in
  let dockerfile := defaultDockerfile (Spec build) in
  let script :=
    buildScript (OutputImage (Spec build)) (ContextUrl (Spec build)) dockerfile in
  let mounts :=
    [ workspaceMount;
      {| vmName := "containers-storage"; MountPath := "/var/lib/containers";
         SubPath := EmptyString; ReadOnly := false |} ] in
  let volumes :=
    [ {| vName := "workspace"; vSource := EmptyDir |};
      {| vName := "containers-storage"; vSource := EmptyDir |} ] in
  let withSecret := negb (String.eqb (PushSecret (Spec build)) EmptyString) in
  let mounts' :=
    if withSecret
    then (mounts ++ [ {| vmName := "registry-auth";
                         MountPath := "/root/.docker/config.json";
                         SubPath := ".dockerconfigjson"; ReadOnly := true |} ])%list
    else mounts in
  let volumes' :=
    if withSecret
    then (volumes ++ [ {| vName := "registry-auth";
                          vSource := Secret (PushSecret (Spec build)) |} ])%list
    else volumes in
  let job :=
    {| jobName := jobName;
       jobNamespace := Namespace build;
       OwnerReferences := [];
       jobPodSpec :=
         {| podRestartPolicy := RestartPolicyNever;
            InitContainers := [ gitCloneContainer (Spec build) ];
            Containers := [ buildahContainer script mounts' ];
            Volumes := volumes' |};
       jobStatus := emptyJobStatus |} in
  SetControllerReference build job scheme.

(** ** The environment of the controller *)

(** [types.NamespacedName], as the pair (namespace, name). *)
Definition NamespacedName := (string * string)%type.

(** The object store: the Build objects and the Jobs, by namespace and
    name. *)
Record World := {
  builds : gmap (string * string) Build;
  jobs : gmap (string * string) Job;
}.

(** [http.Request] together with the [Timeout] of the [http.Client] that
    sends it (in nanoseconds, as [time.Duration]). *)
Record HTTPRequest := {
  Method : string;
  reqURL : string;
  Header : gmap string string;
  Body : string;
  Timeout : Z;
}.

(** The map literal that [sendCallback] marshals. *)
Record Payload := {
  pName : string;
  pNamespace : string;
  pPhase : BuildPhase;
  pImage : string;
  pTimestamp : Time;
}.

(** What the environment answers to the calls of one invocation.
    The [...Err] fields are the failures of the store that do not depend on
    its content (conflicts, transport errors); [updateErr n] is the one of
    the n-th [Status().Update] of the invocation and [clock n] is what the
    n-th [time.Now()] returns. [httpDo] answers a request with a status code
    or with an error (a timeout is an error). *)
Record Env := {
  scheme : Scheme;
  getBuildErr : option error;
  getJobErr : option error;
  createErr : option error;
  updateErr : nat -> option error;
  deleteErr : option error;
  clock : nat -> Time;
  jsonMarshal : Payload -> string + error;
  urlParseErr : string -> option error;
  httpDo : HTTPRequest -> Z + error;
}.

(** The effects of an invocation, in the order they happen. [EvSendCallback]
    records a call of [sendCallback] and what it returned. *)
Inductive Event :=
| EvCreate (j : Job) (err : option error)
| EvStatusUpdate (b : Build) (err : option error)
| EvHTTPDo (req : HTTPRequest) (res : Z + error)
| EvSendCallback (phase : BuildPhase) (err : option error)
| EvDelete (key : NamespacedName) (err : option error).

(** The state threaded through one invocation. *)
Record St := {
  world : World;
  trace : list Event;
  ticks : nat;
  updates : nat;
}.

(** A state monad over [St]; errors are returned as values, as in Go. *)
Definition M (A : Type) : Type := St -> A * St.

Definition ret {A} (a : A) : M A := fun s => (a, s).

Definition bind {A B} (c : M A) (k : A -> M B) : M B :=
  fun s => let (a, s') := c s in k a s'.

Notation "'let*' x ':=' c 'in' k" := (bind c (fun x => k))
  (at level 10, x name, c at level 100, k at level 200).

Definition emit (e : Event) : M unit :=
  fun s => (tt, {| world := world s; trace := (trace s ++ [e])%list;
                   ticks := ticks s; updates := updates s |}).

Definition setWorld (w : World) : M unit :=
  fun s => (tt, {| world := w; trace := trace s;
                   ticks := ticks s; updates := updates s |}).

Definition getWorld : M World := fun s => (world s, s).

Section Controller.

Variable env : Env.

(** [time.Now()] *)
Definition time_Now : M Time :=
  fun s => (clock env (ticks s),
            {| world := world s; trace := trace s;
               ticks := S (ticks s); updates := updates s |}).

(** [r.Get] for a Build. *)
Definition r_Get_build (key : NamespacedName) : M (Build + error) :=
  let* w := getWorld in
  match getBuildErr env with
  | Some e => ret (inr e)
  | None =>
      match builds w !! key with
      | Some b => ret (inl b)
      | None => ret (inr ErrNotFound)
      end
  end.

(** [r.Get] for a Job. *)
Definition r_Get_job (key : NamespacedName) : M (Job + error) :=
  let* w := getWorld in
  match getJobErr env with
  | Some e => ret (inr e)
  | None =>
      match jobs w !! key with
      | Some j => ret (inl j)
      | None => ret (inr ErrNotFound)
      end
  end.

Definition storeCreate (w : World) (j : Job) : World + error :=
  match createErr env with
  | Some e => inr e
  | None =>
      match jobs w !! (jobNamespace j, jobName j) with
      | Some _ => inr (ErrOther "already exists")
      | None =>
          inl {| builds := builds w;
                 jobs := <[(jobNamespace j, jobName j) := j]> (jobs w) |}
      end
  end.

(** [r.Create] for a Job. *)
Definition r_Create (j : Job) : M (option error) :=
  let* w := getWorld in
  match storeCreate w j with
  | inr e => let* _ := emit (EvCreate j (Some e)) in ret (Some e)
  | inl w' =>
      let* _ := setWorld w' in
      let* _ := emit (EvCreate j None) in
      ret None
  end.

Definition storeUpdateStatus (n : nat) (w : World) (b : Build) : World + error :=
  match updateErr env n with
  | Some e => inr e
  | None =>
      match builds w !! (Namespace b, Name b) with
      | None => inr ErrNotFound
      | Some stored =>
          inl {| builds := <[(Namespace b, Name b) := withStatus stored (Status b)]> (builds w);
                 jobs := jobs w |}
      end
  end.

(** [r.Status().Update]: the status of the stored object becomes the one of
    the local copy. *)
Definition r_Status_Update (b : Build) : M (option error) :=
  fun s =>
    let s1 := {| world := world s; trace := trace s;
                 ticks := ticks s; updates := S (updates s) |} in
    match storeUpdateStatus (updates s) (world s) b with
    | inr e => (let* _ := emit (EvStatusUpdate b (Some e)) in ret (Some e)) s1
    | inl w' =>
        (let* _ := setWorld w' in
         let* _ := emit (EvStatusUpdate b None) in
         ret None) s1
    end.

Definition storeDelete (w : World) (key : NamespacedName) : World + error :=
  match deleteErr env with
  | Some e => inr e
  | None =>
      match builds w !! key with
      | None => inr ErrNotFound
      | Some _ => inl {| builds := delete key (builds w); jobs := jobs w |}
      end
  end.

(** [r.Delete] for a Build. The jobs it owns are collected by the store
    afterwards, outside the controller. *)
Definition r_Delete (b : Build) : M (option error) :=
  let* w := getWorld in
  let key := (Namespace b, Name b) in
  match storeDelete w key with
  | inr e => let* _ := emit (EvDelete key (Some e)) in ret (Some e)
  | inl w' =>
      let* _ := setWorld w' in
      let* _ := emit (EvDelete key None) in
      ret None
  end.

(** ** The callback dispatcher: [sendCallback] *)

(** [time.Second], in nanoseconds. *)
Definition Second : Z := 1000000000.

(** [client.Do] *)
Definition client_Do (req : HTTPRequest) : M (Z + error) :=
  let res := httpDo env req in
  let* _ := emit (EvHTTPDo req res) in
  ret res.

(** [fmt.Errorf("callback failed with status code: %d", code)] *)
Definition statusCodeError (code : Z) : error :=
  ErrOther ("callback failed with status code: " +:+ pretty code).

(** The payload of lines 255-261. *)
Definition callbackPayload (build : Build) (phase : BuildPhase) (now : Time) : Payload :=
  {| pName := Name build; pNamespace := Namespace build; pPhase := phase;
     pImage := OutputImage (Spec build); pTimestamp := now |}.

(** The header of the request (lines 272-276). *)
Definition callbackHeader (cb : CallbackSpec) : gmap string string :=
  let header := <["Content-Type" := "application/json"]> (∅ : gmap string string) in
  if negb (String.eqb (AuthToken cb) EmptyString)
  then <["Authorization" := "Bearer " +:+ AuthToken cb]> header
  else header.

(** The request and the client that sends it (lines 268-278). *)
Definition callbackRequest (cb : CallbackSpec) (jsonPayload : string) : HTTPRequest :=
  {| Method := "POST"; reqURL := URL cb; Header := callbackHeader cb;
     Body := jsonPayload; Timeout := 10 * Second |}.

(** [sendCallback]. The caller has checked that [build.Spec.Callback] is not
    nil and passes what it points to as [cb]. [http.NewRequest] fails when
    the URL does not parse. *)
Definition sendCallback (build : Build) (cb : CallbackSpec) (phase : BuildPhase)
  : M (option error) :=
  let* now := time_Now in
  let payload := callbackPayload build phase now in
  match jsonMarshal env payload with
  | inr err => ret (Some err)
  | inl jsonPayload =>
      match urlParseErr env (URL cb) with
      | Some err => ret (Some err)
      | None =>
          let req := callbackRequest cb jsonPayload in
          let* resp := client_Do req in
          match resp with
          | inr err => ret (Some err)
          | inl StatusCode =>
              if (StatusCode <? 200) || (StatusCode >=? 300)
              then ret (Some (statusCodeError StatusCode))
              else ret None
          end
      end
  end.

(** ** The reconciler: [Reconcile] *)

(** [ctrl.Result] *)
Record Result := { Requeue : bool }.

Definition isTerminal (p : BuildPhase) : bool :=
  String.eqb p BuildPhaseSucceeded || String.eqb p BuildPhaseFailed.

(** Lines 83-92: the phase and the completion time read off the job. *)
Definition syncStatus (stored : BuildPhase) (js : JobStatus)
  : M (BuildPhase * option Time) :=
  if Succeeded js >? 0 then ret (BuildPhaseSucceeded, jobCompletionTime js)
  else if Failed js >? 0 then
    let* now := time_Now in ret (BuildPhaseFailed, Some now)
  else ret (stored, None).

(** Lines 104-126: the callback and the clean-up after a status update. *)
Definition handleCallback (build : Build) (newPhase : BuildPhase)
  : M (Result * option error) :=
  if isTerminal newPhase then
    match Callback (Spec build) with
    | Some cb =>
        let* err := sendCallback build cb newPhase in
        let* _ := emit (EvSendCallback newPhase err) in
        match err with
        | Some _ =>
            let build := withStatus build (setCallbackStatus "Failed" (Status build)) in
            let* _ := r_Status_Update build in
            ret ({| Requeue := false |}, None)
        | None =>
            let build := withStatus build (setCallbackStatus "Success" (Status build)) in
            let* _ := r_Status_Update build in
            if String.eqb newPhase BuildPhaseSucceeded then
              let* err := r_Delete build in
              match err with
              | Some err => ret ({| Requeue := false |}, Some err)
              | None => ret ({| Requeue := false |}, None)
              end
            else ret ({| Requeue := false |}, None)
        end
    | None => ret ({| Requeue := false |}, None)
    end
  else ret ({| Requeue := false |}, None).

(** Lines 53-77: no job was found. *)
Definition createJob (build : Build) (jobName : string) : M (Result * option error) :=
  if isTerminal (Phase (Status build)) then ret ({| Requeue := false |}, None)
  else
    match constructJob (scheme env) build with
    | inr err => ret ({| Requeue := false |}, Some err)
    | inl job =>
        let* err := r_Create job in
        match err with
        | Some err => ret ({| Requeue := false |}, Some err)
        | None =>
            let build :=
              withStatus build
                (setJobRef jobName (setPhase BuildPhaseRunning (Status build))) in
            let* err := r_Status_Update build in
            match err with
            | Some err => ret ({| Requeue := false |}, Some err)
            | None => ret ({| Requeue := true |}, None)
            end
        end
    end.

(** Lines 83-129: a job was found. *)
Definition syncJob (build : Build) (job : Job) : M (Result * option error) :=
  let* synced := syncStatus (Phase (Status build)) (jobStatus job) in
  let newPhase := fst synced in
  let completionTime := snd synced in
  if negb (String.eqb newPhase (Phase (Status build))) then
    let build :=
      withStatus build
        (setCompletionTime completionTime (setPhase newPhase (Status build))) in
    let* err := r_Status_Update build in
    match err with
    | Some err => ret ({| Requeue := false |}, Some err)
    | None => handleCallback build newPhase
    end
  else ret ({| Requeue := false |}, None).

Definition Reconcile (req : NamespacedName) : M (Result * option error) :=
  let* got := r_Get_build req in
  match got with
  | inr err => ret ({| Requeue := false |}, IgnoreNotFound (Some err))
  | inl build =>
      let jobName := jobNameOf (Name build) in
      let* got := r_Get_job (Namespace build, jobName) in
      match got with
      | inr err =>
          if IsNotFound err then createJob build jobName
          else ret ({| Requeue := false |}, Some err)
      | inl job => syncJob build job
      end
  end.

End Controller.

(** ** Running the reconciler *)

(** What one invocation leaves behind. *)
Record Outcome := {
  outResult : Result;
  outErr : option error;
  outWorld : World;
  outTrace : list Event;
}.

Definition initSt (w : World) : St :=
  {| world := w; trace := []; ticks := 0%nat; updates := 0%nat |}.

Definition reconcile (env : Env) (req : NamespacedName) (w : World) : Outcome :=
  let '((r, e), s) := Reconcile env req (initSt w) in
  {| outResult := r; outErr := e; outWorld := world s; outTrace := trace s |}.

(** ** What an invocation observes and does *)

(** The pure part of [syncStatus]: the phase the job counters stand for. *)
Definition targetPhase (stored : BuildPhase) (js : JobStatus) : BuildPhase :=
  if Succeeded js >? 0 then BuildPhaseSucceeded
  else if Failed js >? 0 then BuildPhaseFailed
  else stored.

(** The Build the invocation fetches, if it fetches one. *)
Definition observedBuild (env : Env) (req : NamespacedName) (w : World) : option Build :=
  match fst (r_Get_build env req (initSt w)) with
  | inl b => Some b
  | inr _ => None
  end.

(** What the look-up of the job of [b] answers. *)
Definition observedJob (env : Env) (w : World) (b : Build) : Job + error :=
  fst (r_Get_job env (Namespace b, jobNameOf (Name b)) (initSt w)).

(** The phase the invocation computes from the job it finds. *)
Definition computedPhase (env : Env) (req : NamespacedName) (w : World) : option BuildPhase :=
  match observedBuild env req w with
  | Some b =>
      match observedJob env w b with
      | inl j => Some (targetPhase (Phase (Status b)) (jobStatus j))
      | inr _ => None
      end
  | None => None
  end.

(** Whether the fetched Build has a callback in its spec. *)
Definition callbackConfigured (env : Env) (req : NamespacedName) (w : World) : bool :=
  match observedBuild env req w with
  | Some b => match Callback (Spec b) with Some _ => true | None => false end
  | None => false
  end.

Definition isDelete (e : Event) : bool :=
  match e with EvDelete _ _ => true | _ => false end.

Definition isCreate (e : Event) : bool :=
  match e with EvCreate _ _ => true | _ => false end.

Definition isHTTPDo (e : Event) : bool :=
  match e with EvHTTPDo _ _ => true | _ => false end.

Definition isSendCallback (e : Event) : bool :=
  match e with EvSendCallback _ _ => true | _ => false end.

(** The invocation called [r.Delete] on the Build. *)
Definition deleteIssued (o : Outcome) : bool := existsb isDelete (outTrace o).

(** What the call of [sendCallback] in a trace returned: [None] when there
    was no call, [Some true] for success (a nil error), [Some false] for
    failure. *)
Fixpoint callbackReturned (t : list Event) : option bool :=
  match t with
  | [] => None
  | EvSendCallback _ None :: _ => Some true
  | EvSendCallback _ (Some _) :: _ => Some false
  | _ :: t' => callbackReturned t'
  end.

Definition callbackOutcome (o : Outcome) : option bool :=
  callbackReturned (outTrace o).

(** The number of HTTP exchanges in a trace. *)
Definition attempts (t : list Event) : nat :=
  length (List.filter isHTTPDo t).

(** [strings.Contains] *)
Fixpoint contains (s sub : string) : bool :=
  String.prefix sub s ||
  match s with
  | EmptyString => false
  | String _ s' => contains s' sub
  end.

Definition containerStrings (c : Container) : list string :=
  ([cName c; Image c; WorkingDir c] ++ Command c ++
   flat_map (fun e => [evName e; evValue e]) (ContainerEnv c) ++
   flat_map (fun m => [vmName m; MountPath m; SubPath m]) (VolumeMounts c))%list.

Definition volumeStrings (v : Volume) : list string :=
  vName v :: match vSource v with EmptyDir => [] | Secret n => [n] end.

(** Every string of a job. *)
Definition jobStrings (j : Job) : list string :=
  ([jobName j; jobNamespace j] ++
   flat_map (fun r => [orAPIVersion r; orKind r; orName r; orUID r]) (OwnerReferences j) ++
   flat_map containerStrings (InitContainers (jobPodSpec j)) ++
   flat_map containerStrings (Containers (jobPodSpec j)) ++
   flat_map volumeStrings (Volumes (jobPodSpec j)))%list.

(** ** Concrete objects for the examples *)

Module Examples.

Definition kairosScheme : Scheme :=
  {| buildGVK := Some ("ops.kairos.io/v1alpha1", "Build") |}.

Definition plainSpec : BuildSpec :=
  {| ContextUrl := "https://git.example/repo.git";
     Revision := EmptyString;
     Dockerfile := EmptyString;
     OutputImage := "registry.example/app:1";
     PushSecret := EmptyString;
     Callback := None |}.

Definition hook : CallbackSpec :=
  {| URL := "https://ci.example/hook"; AuthToken := "s3cret" |}.

Definition hookSpec : BuildSpec :=
  {| ContextUrl := "https://git.example/repo.git";
     Revision := "v2";
     Dockerfile := "docker/Dockerfile";
     OutputImage := "registry.example/app:1";
     PushSecret := "regcred";
     Callback := Some hook |}.

Definition mkBuild (s : BuildSpec) (st : BuildStatus) : Build :=
  {| Name := "demo"; Namespace := "ci"; UID := "u-1"; Spec := s; Status := st |}.

Definition key : NamespacedName := ("ci", "demo").
Definition jobKey : NamespacedName := ("ci", "build-demo").

Definition statusIn (p : BuildPhase) (t : option Time) : BuildStatus :=
  {| Phase := p; JobRef := "build-demo"; CallbackStatus := EmptyString;
     CompletionTime := t |}.

Definition mkJob (succeeded failed : Z) (t : option Time) : Job :=
  {| jobName := "build-demo"; jobNamespace := "ci"; OwnerReferences := [];
     jobPodSpec := {| podRestartPolicy := RestartPolicyNever;
                      InitContainers := []; Containers := []; Volumes := [] |};
     jobStatus := {| Succeeded := succeeded; Failed := failed;
                     jobCompletionTime := t |} |}.

Definition mkWorld (b : Build) (j : option Job) : World :=
  {| builds := {[ key := b ]};
     jobs := match j with Some j => {[ jobKey := j ]} | None => ∅ end |}.

(** An environment in which the store answers every call and the webhook
    answers with the status code [code]. *)
Definition calmEnv (code : Z) : Env :=
  {| scheme := kairosScheme;
     getBuildErr := None; getJobErr := None; createErr := None;
     updateErr := fun _ => None; deleteErr := None;
     clock := fun n => 1000 + Z.of_nat n;
     jsonMarshal := fun p => inl (pName p +:+ "/" +:+ pPhase p);
     urlParseErr := fun _ => None;
     httpDo := fun _ => inl code |}.

(** [net/url] refuses a URL with an ASCII control character, and
    [http.NewRequest] with it. *)
Definition isCTL (c : ascii) : bool :=
  (nat_of_ascii c <? 32)%nat || (nat_of_ascii c =? 127)%nat.

Definition strictURLEnv (code : Z) : Env :=
  {| scheme := kairosScheme;
     getBuildErr := None; getJobErr := None; createErr := None;
     updateErr := fun _ => None; deleteErr := None;
     clock := fun n => 1000 + Z.of_nat n;
     jsonMarshal := fun p => inl (pName p +:+ "/" +:+ pPhase p);
     urlParseErr := fun u =>
       if existsb isCTL (list_ascii_of_string u)
       then Some (ErrOther "net/url: invalid control character in URL")
       else None;
     httpDo := fun _ => inl code |}.

(** A callback URL that ends in a line feed. *)
Definition brokenHook : CallbackSpec :=
  {| URL := "https://ci.example/hook" +:+ nl; AuthToken := EmptyString |}.

(** An environment in which the store refuses the deletion. *)
Definition noDeleteEnv : Env :=
  {| scheme := kairosScheme;
     getBuildErr := None; getJobErr := None; createErr := None;
     updateErr := fun _ => None;
     deleteErr := Some (ErrOther "the server is currently unable to handle the request");
     clock := fun n => 1000 + Z.of_nat n;
     jsonMarshal := fun p => inl (pName p +:+ "/" +:+ pPhase p);
     urlParseErr := fun _ => None;
     httpDo := fun _ => inl 200 |}.

End Examples.

(** ** Runs: invocations interleaved with the execution substrate *)

(** The store keeps every Build under its own namespace and name. *)
Definition wfWorld (w : World) : Prop :=
  forall ns n b, builds w !! (ns, n) = Some b -> Namespace b = ns /\ Name b = n.

(** A Build the controller has not touched yet has the empty status. *)
Definition freshWorld (w : World) : Prop :=
  forall k b, builds w !! k = Some b -> Status b = emptyStatus.

(** One step of a run: the execution substrate rewrites the jobs (it starts
    pods, counts them, or an operator removes the job), then the controller
    is invoked for [stepReq] in the environment [stepEnv]. *)
Record Step := {
  substrate : gmap (string * string) Job -> gmap (string * string) Job;
  stepEnv : Env;
  stepReq : NamespacedName;
}.

Definition observe (st : Step) (w : World) : World :=
  {| builds := builds w; jobs := substrate st (jobs w) |}.

Definition step (st : Step) (w : World) : World :=
  outWorld (reconcile (stepEnv st) (stepReq st) (observe st w)).

Fixpoint run (steps : list Step) (w : World) : World :=
  match steps with
  | [] => w
  | st :: rest => run rest (step st w)
  end.

(** The stored phase of a Build, if the Build is in the store. *)
Definition phaseAt (w : World) (k : NamespacedName) : option BuildPhase :=
  match builds w !! k with
  | Some b => Some (Phase (Status b))
  | None => None
  end.

Definition completionAt (w : World) (k : NamespacedName) : option (option Time) :=
  match builds w !! k with
  | Some b => Some (CompletionTime (Status b))
  | None => None
  end.

(** ** Concrete runs *)

Module Runs.
Import Examples.

(** The substrate reports counters and a completion time on every job. *)
Definition reports (succeeded failed : Z) (t : option Time)
  : gmap (string * string) Job -> gmap (string * string) Job :=
  fmap (fun j =>
          {| jobName := jobName j; jobNamespace := jobNamespace j;
             OwnerReferences := OwnerReferences j; jobPodSpec := jobPodSpec j;
             jobStatus := {| Succeeded := succeeded; Failed := failed;
                             jobCompletionTime := t |} |}).

Definition quiet : gmap (string * string) Job -> gmap (string * string) Job :=
  fun js => js.

Definition invoke (f : gmap (string * string) Job -> gmap (string * string) Job) : Step :=
  {| substrate := f; stepEnv := calmEnv 200; stepReq := key |}.

(** An environment in which the store refuses the first status update of
    the invocation with a conflict. *)
Definition conflictEnv : Env :=
  {| scheme := kairosScheme;
     getBuildErr := None; getJobErr := None; createErr := None;
     updateErr := fun n =>
       match n with
       | O => Some (ErrOther "the object has been modified")
       | S _ => None
       end;
     deleteErr := None;
     clock := fun n => 1000 + Z.of_nat n;
     jsonMarshal := fun p => inl (pName p +:+ "/" +:+ pPhase p);
     urlParseErr := fun _ => None;
     httpDo := fun _ => inl 200 |}.

Definition invokeIn (env : Env)
    (f : gmap (string * string) Job -> gmap (string * string) Job) : Step :=
  {| substrate := f; stepEnv := env; stepReq := key |}.

(** A Build that was just submitted, without a callback. *)
Definition submitted : World := mkWorld (mkBuild plainSpec emptyStatus) None.

(** The same with a callback. *)
Definition submittedWithHook : World := mkWorld (mkBuild hookSpec emptyStatus) None.

End Runs.

(** ** What an invocation may do to a stored status *)

(** Whether a request for the callback can be built: the payload is
    encoded and the URL parses. *)
Definition requestBuilt (env : Env) (build : Build) (cb : CallbackSpec)
    (phase : BuildPhase) (s : St) : option HTTPRequest :=
  match jsonMarshal env (callbackPayload build phase (clock env (ticks s))) with
  | inr _ => None
  | inl jsonPayload =>
      match urlParseErr env (URL cb) with
      | Some _ => None
      | None => Some (callbackRequest cb jsonPayload)
      end
  end.

(** The two ways in which an invocation for the Build [b] changes its
    phase: it submits a job, or it takes the phase from the job it found. *)
Inductive transition (env : Env) (w : World) (b : Build) (st' : BuildStatus) : Prop :=
| JobSubmitted (e : error) :
    observedJob env w b = inr e -> IsNotFound e = true ->
    isTerminal (Phase (Status b)) = false ->
    Phase st' = BuildPhaseRunning ->
    CompletionTime st' = CompletionTime (Status b) ->
    transition env w b st'
| JobObserved (j : Job) :
    observedJob env w b = inl j ->
    Phase st' = targetPhase (Phase (Status b)) (jobStatus j) ->
    Phase st' <> Phase (Status b) ->
    CompletionTime st' =
      (if Succeeded (jobStatus j) >? 0 then jobCompletionTime (jobStatus j)
       else Some (clock env 0)) ->
    transition env w b st'.

(** ** Further observations on an invocation and on a job *)

(** What [r.Get] answers for the Build of the request. *)
Definition buildLookup (env : Env) (req : NamespacedName) (w : World) : Build + error :=
  fst (r_Get_build env req (initSt w)).

Definition isUpdate (e : Event) : bool :=
  match e with EvStatusUpdate _ _ => true | _ => false end.

(** How many events of a kind a trace has. *)
Definition count (f : Event -> bool) (t : list Event) : nat :=
  length (List.filter f t).

(** The reads of the store answer from its content. *)
Definition readsOK (env : Env) : Prop :=
  getBuildErr env = None /\ getJobErr env = None.

(** The volumes the containers of a pod mount, by name. *)
Definition mountedVolumes (p : PodSpec) : list string :=
  flat_map (fun c => map vmName (VolumeMounts c))
    (InitContainers p ++ Containers p)%list.

(** The volumes a pod declares, by name. *)
Definition declaredVolumes (p : PodSpec) : list string :=
  map vName (Volumes p).

(** The secrets the volumes of a pod refer to. *)
Definition secretVolumes (p : PodSpec) : list (string * string) :=
  flat_map (fun v => match vSource v with
                     | Secret n => [(vName v, n)]
                     | EmptyDir => []
                     end) (Volumes p).

(** What the controller keeps of a status: the job reference is empty or
    the name of the job of the Build, the callback status is empty,
    "Success" or "Failed", and it is empty outside the terminal phases. *)
Definition statusInvariant (b : Build) : Prop :=
  (JobRef (Status b) = EmptyString \/ JobRef (Status b) = jobNameOf (Name b)) /\
  (CallbackStatus (Status b) = EmptyString \/
   CallbackStatus (Status b) = "Success" \/
   CallbackStatus (Status b) = "Failed") /\
  (CallbackStatus (Status b) <> EmptyString -> isTerminal (Phase (Status b)) = true).

(** The statuses an invocation may write for the Build [b]. *)
Inductive written (b : Build) (st : BuildStatus) : Prop :=
| WrittenRunning :
    isTerminal (Phase (Status b)) = false ->
    st = setJobRef (jobNameOf (Name b)) (setPhase BuildPhaseRunning (Status b)) ->
    written b st
| WrittenPhase (p : BuildPhase) (t : option Time) :
    isTerminal p = true ->
    st = setCompletionTime t (setPhase p (Status b)) ->
    written b st
| WrittenCallback (p : BuildPhase) (t : option Time) (c : string) :
    isTerminal p = true ->
    c = "Success" \/ c = "Failed" ->
    st = setCallbackStatus c (setCompletionTime t (setPhase p (Status b))) ->
    written b st.

(** * Properties *)

(** ** The job builder *)

Lemma constructJob_inv sch b j :
  constructJob sch b = inl j ->
  InitContainers (jobPodSpec j) = [gitCloneContainer (Spec b)] /\
  jobName j = jobNameOf (Name b) /\ jobNamespace j = Namespace b.
Proof.
  unfold constructJob, SetControllerReference.
  destruct (buildGVK sch) as [[v k]|]; [|discriminate].
  intros H. injection H as <-. cbn. auto.
Qed.

(** C10: two Builds that differ only in [Spec.Revision] get the same job
    from [constructJob] (so neither the revision nor its default is
    anywhere in the job), and the fetch stage of the job is
    [git clone <contextUrl> /workspace]. *)
Theorem constructJob_ignores_revision (sch : Scheme) (b1 b2 : Build) :
  Name b1 = Name b2 -> Namespace b1 = Namespace b2 -> UID b1 = UID b2 ->
  ContextUrl (Spec b1) = ContextUrl (Spec b2) ->
  Dockerfile (Spec b1) = Dockerfile (Spec b2) ->
  OutputImage (Spec b1) = OutputImage (Spec b2) ->
  PushSecret (Spec b1) = PushSecret (Spec b2) ->
  Callback (Spec b1) = Callback (Spec b2) ->
  constructJob sch b1 = constructJob sch b2 /\
  (forall j, constructJob sch b1 = inl j ->
     map Command (InitContainers (jobPodSpec j)) =
     [["git"; "clone"; ContextUrl (Spec b1); "/workspace"]]).
Proof.
  intros Hn Hns Hu Hc Hd Ho Hp _. split.
  - unfold constructJob, SetControllerReference, gitCloneContainer,
      defaultDockerfile.
    rewrite Hn, Hns, Hu, Hc, Hd, Ho, Hp. reflexivity.
  - intros j Hj. apply constructJob_inv in Hj as (-> & _). reflexivity.
Qed.

Lemma constructJob_ignores_revision_witness :
  constructJob Examples.kairosScheme (Examples.mkBuild Examples.plainSpec emptyStatus) =
  constructJob Examples.kairosScheme
    (Examples.mkBuild
       {| ContextUrl := "https://git.example/repo.git"; Revision := "release-7";
          Dockerfile := EmptyString; OutputImage := "registry.example/app:1";
          PushSecret := EmptyString; Callback := None |} emptyStatus).
Proof.
  apply (constructJob_ignores_revision Examples.kairosScheme
           (Examples.mkBuild Examples.plainSpec emptyStatus)); reflexivity.
Defined.

(** The Dockerfile default does reach the job: with an empty
    [Spec.Dockerfile] the build script runs [buildah bud -f Dockerfile]. *)
Lemma constructJob_default_dockerfile sch b j :
  Dockerfile (Spec b) = EmptyString ->
  constructJob sch b = inl j ->
  exists mounts,
    Containers (jobPodSpec j) =
    [buildahContainer
       (buildScript (OutputImage (Spec b)) (ContextUrl (Spec b)) "Dockerfile") mounts].
Proof.
  unfold constructJob, SetControllerReference, defaultDockerfile.
  intros ->. destruct (buildGVK sch) as [[v k]|]; [|discriminate].
  intros H. injection H as <-. cbn. eauto.
Qed.

(** C6: at a spec with empty [revision] and [dockerfilePath] the job runs
    [git clone] without a revision and no string of the job contains
    "master"; the job is the one of any other revision. The "Dockerfile"
    default is in the build script. *)
Theorem constructJob_drops_default_revision :
  exists j,
    constructJob Examples.kairosScheme (Examples.mkBuild Examples.plainSpec emptyStatus) = inl j /\
    defaultRevision Examples.plainSpec = "master" /\
    map Command (InitContainers (jobPodSpec j)) =
      [["git"; "clone"; "https://git.example/repo.git"; "/workspace"]] /\
    existsb (fun s => contains s "master") (jobStrings j) = false /\
    existsb (fun s => contains s "-f Dockerfile ") (jobStrings j) = true.
Proof.
  eexists. split; [reflexivity|]. vm_compute. auto.
Qed.

(** ** The store *)

Lemma storeUpdateStatus_inl env n w b w' :
  storeUpdateStatus env n w b = inl w' ->
  exists stored,
    builds w !! (Namespace b, Name b) = Some stored /\
    builds w' = <[(Namespace b, Name b) := withStatus stored (Status b)]> (builds w) /\
    jobs w' = jobs w.
Proof.
  unfold storeUpdateStatus. destruct (updateErr env n); [discriminate|].
  destruct (builds w !! (Namespace b, Name b)) as [stored|] eqn:E; [|discriminate].
  intros H. injection H as <-. eauto.
Qed.

Lemma storeDelete_inl env w k w' :
  storeDelete env w k = inl w' ->
  builds w' = delete k (builds w) /\ jobs w' = jobs w.
Proof.
  unfold storeDelete. destruct (deleteErr env); [discriminate|].
  destruct (builds w !! k); [|discriminate].
  intros H. injection H as <-. auto.
Qed.

Lemma storeCreate_inl env w j w' :
  storeCreate env w j = inl w' -> builds w' = builds w.
Proof.
  unfold storeCreate. destruct (createErr env); [discriminate|].
  destruct (jobs w !! _); [discriminate|].
  intros H. injection H as <-. reflexivity.
Qed.

(** A status update keeps every Build in the store. *)
Lemma storeUpdateStatus_keeps env n w b w' k :
  storeUpdateStatus env n w b = inl w' ->
  is_Some (builds w !! k) -> is_Some (builds w' !! k).
Proof.
  intros (stored & Hs & -> & _)%storeUpdateStatus_inl Hk.
  destruct (decide ((Namespace b, Name b) = k)) as [<-|Hne].
  - rewrite lookup_insert_eq. eauto.
  - rewrite lookup_insert_ne; auto.
Qed.

Lemma storeCreate_keeps env w j w' k :
  storeCreate env w j = inl w' ->
  is_Some (builds w !! k) -> is_Some (builds w' !! k).
Proof. intros ->%storeCreate_inl. auto. Qed.

Ltac mred :=
  cbv beta iota zeta delta
    [reconcile Reconcile createJob syncJob handleCallback sendCallback syncStatus
     r_Get_build r_Get_job r_Create r_Status_Update r_Delete client_Do time_Now
     bind ret emit setWorld getWorld initSt
     observedBuild observedJob computedPhase callbackConfigured targetPhase
     deleteIssued callbackOutcome
     world trace ticks updates fst snd
     outResult outErr outWorld outTrace] in *.

Ltac destr_inner :=
  match goal with
  | |- context [match ?x with _ => _ end] =>
      lazymatch x with
      | context [match _ with _ => _ end] => fail
      | _ => destruct x eqn:?
      end
  | H : context [match ?x with _ => _ end] |- _ =>
      lazymatch x with
      | context [match _ with _ => _ end] => fail
      | _ => destruct x eqn:?
      end
  end.

Ltac mcases := mred; repeat (destr_inner; simplify_eq; mred).

Ltac bool_facts :=
  unfold isTerminal, BuildPhaseSucceeded, BuildPhaseFailed, BuildPhaseRunning,
    BuildPhasePending in *;
  repeat match goal with
  | H : negb _ = true |- _ => apply negb_true_iff in H
  | H : negb _ = false |- _ => apply negb_false_iff in H
  | H : (_ || _) = true |- _ => apply orb_true_iff in H
  | H : (_ || _) = false |- _ => apply orb_false_iff in H; destruct H
  | H : String.eqb _ _ = true |- _ => apply String.eqb_eq in H
  | H : String.eqb _ _ = false |- _ => apply String.eqb_neq in H
  | H : IsNotFound ?e = true |- _ => destruct e; [clear H | discriminate H]
  | H : IsNotFound ?e = false |- _ => destruct e; [discriminate H | clear H]
  end.

Ltac rec_simpl :=
  cbn [withStatus setPhase setCompletionTime setCallbackStatus setJobRef
       Spec Status Name Namespace UID Callback Phase CompletionTime
       CallbackStatus JobRef app In existsb isDelete isCreate isHTTPDo
       isSendCallback callbackReturned orb negb] in *.


(** ** The reconciler *)

(** C7: when the job that is found stands for the phase that is already
    stored, the invocation does nothing: no status update, no callback, no
    deletion, no change of the store, and it returns without error. *)
Theorem matching_phase_is_noop env req w b j :
  observedBuild env req w = Some b ->
  observedJob env w b = inl j ->
  targetPhase (Phase (Status b)) (jobStatus j) = Phase (Status b) ->
  reconcile env req w =
  {| outResult := {| Requeue := false |}; outErr := None;
     outWorld := w; outTrace := [] |}.
Proof.
  intros Hb Hj Ht. mcases; try reflexivity; bool_facts; congruence.
Qed.

Lemma matching_phase_is_noop_witness :
  let w := Examples.mkWorld
             (Examples.mkBuild Examples.hookSpec
                (Examples.statusIn BuildPhaseSucceeded (Some 500)))
             (Some (Examples.mkJob 1 0 (Some 500))) in
  reconcile (Examples.calmEnv 200) Examples.key w =
  {| outResult := {| Requeue := false |}; outErr := None;
     outWorld := w; outTrace := [] |}.
Proof.
  intros w.
  apply (matching_phase_is_noop (Examples.calmEnv 200) Examples.key w
           (Examples.mkBuild Examples.hookSpec
              (Examples.statusIn BuildPhaseSucceeded (Some 500)))
           (Examples.mkJob 1 0 (Some 500))); reflexivity.
Defined.

Lemma create_only_without_job env req w :
  existsb isCreate (outTrace (reconcile env req w)) = true ->
  match observedBuild env req w with
  | Some b =>
      isTerminal (Phase (Status b)) = false /\
      match observedJob env w b with
      | inr e => IsNotFound e = true
      | inl _ => False
      end
  | None => False
  end.
Proof.
  mcases; rec_simpl; intros; try discriminate; auto.
Qed.

(** C3: when the look-up of the job answers not-found and the stored phase
    is Succeeded or Failed, the invocation stops: no job is created, the
    store is unchanged and no error is returned. A job is created only
    after a not-found answer and only for a stored phase that is neither
    Succeeded nor Failed. *)
Theorem terminal_without_job_stops env req w :
  (forall b e,
     observedBuild env req w = Some b ->
     observedJob env w b = inr e -> IsNotFound e = true ->
     Phase (Status b) = BuildPhaseSucceeded \/ Phase (Status b) = BuildPhaseFailed ->
     reconcile env req w =
     {| outResult := {| Requeue := false |}; outErr := None;
        outWorld := w; outTrace := [] |}) /\
  (forall j err,
     In (EvCreate j err) (outTrace (reconcile env req w)) ->
     exists b e,
       observedBuild env req w = Some b /\
       observedJob env w b = inr e /\ IsNotFound e = true /\
       Phase (Status b) <> BuildPhaseSucceeded /\
       Phase (Status b) <> BuildPhaseFailed).
Proof.
  split.
  - intros b e Hb Hj He Hp.
    assert (Ht : isTerminal (Phase (Status b)) = true).
    { unfold isTerminal. destruct Hp as [-> | ->]; reflexivity. }
    clear Hp. mcases; try reflexivity; try discriminate; congruence.
  - intros j err Hin.
    assert (Hc : existsb isCreate (outTrace (reconcile env req w)) = true).
    { apply existsb_exists. exists (EvCreate j err). split; [exact Hin | reflexivity]. }
    apply create_only_without_job in Hc.
    destruct (observedBuild env req w) as [b|] eqn:Hb; [|contradiction].
    destruct Hc as [Ht Hj].
    destruct (observedJob env w b) as [?|e] eqn:He; [contradiction|].
    exists b, e.
    split; [reflexivity|]. split; [exact He|]. split; [exact Hj|].
    split; intros Hp; rewrite Hp in Ht; discriminate Ht.
Qed.

Lemma terminal_without_job_stops_witness :
  let w := Examples.mkWorld
             (Examples.mkBuild Examples.plainSpec
                (Examples.statusIn BuildPhaseFailed (Some 500))) None in
  reconcile (Examples.calmEnv 200) Examples.key w =
  {| outResult := {| Requeue := false |}; outErr := None;
     outWorld := w; outTrace := [] |}.
Proof.
  intros w.
  apply (proj1 (terminal_without_job_stops (Examples.calmEnv 200) Examples.key w)
           (Examples.mkBuild Examples.plainSpec
              (Examples.statusIn BuildPhaseFailed (Some 500)))
           ErrNotFound);
    [reflexivity | reflexivity | reflexivity | right; reflexivity].
Defined.

Lemma delete_iff_policy env req w :
  let o := reconcile env req w in
  deleteIssued o = true <->
  computedPhase env req w = Some BuildPhaseSucceeded /\
  callbackConfigured env req w = true /\
  callbackOutcome o = Some true.
Proof.
  mcases; rec_simpl; bool_facts; intuition congruence.
Qed.

Lemma retained_without_delete env req w k :
  deleteIssued (reconcile env req w) = false ->
  is_Some (builds w !! k) ->
  is_Some (builds (outWorld (reconcile env req w)) !! k).
Proof.
  mcases; rec_simpl; intros; try discriminate;
    eauto using storeUpdateStatus_keeps, storeCreate_keeps.
Qed.

Lemma accepted_delete_removes env req w k :
  In (EvDelete k None) (outTrace (reconcile env req w)) ->
  builds (outWorld (reconcile env req w)) !! k = None.
Proof.
  mcases; rec_simpl; intros Hin; try contradiction;
    repeat (destruct Hin as [Hin | Hin]; [try discriminate Hin|]);
    try contradiction.
  all: injection Hin as <-.
  all: match goal with
       | H : storeDelete _ _ _ = inl _ |- _ =>
           apply storeDelete_inl in H as [-> _]
       end.
  all: apply lookup_delete_eq.
Qed.

(** C1: the invocation deletes the Build exactly when the phase it computed
    is Succeeded, the spec has a callback and the callback dispatch returned
    success. Without that the Build stays in the store, and the deletion
    the store accepts removes it. *)
Theorem cleanup_policy env req w :
  let o := reconcile env req w in
  (deleteIssued o = true <->
     computedPhase env req w = Some BuildPhaseSucceeded /\
     callbackConfigured env req w = true /\
     callbackOutcome o = Some true) /\
  (deleteIssued o = false ->
     forall k, is_Some (builds w !! k) -> is_Some (builds (outWorld o) !! k)) /\
  (forall k, In (EvDelete k None) (outTrace o) -> builds (outWorld o) !! k = None).
Proof.
  intros o. split; [apply delete_iff_policy|].
  split.
  - intros Hd k. apply retained_without_delete. exact Hd.
  - intros k. apply accepted_delete_removes.
Qed.

Lemma callback_failure_quiet env req w :
  callbackOutcome (reconcile env req w) = Some false ->
  outErr (reconcile env req w) = None /\
  outResult (reconcile env req w) = {| Requeue := false |} /\
  deleteIssued (reconcile env req w) = false.
Proof.
  mcases; rec_simpl; intros; try discriminate; auto.
Qed.

Lemma callback_failure_recorded env req w :
  callbackOutcome (reconcile env req w) = Some false ->
  exists b upd r,
    observedBuild env req w = Some b /\
    last (outTrace (reconcile env req w)) = Some (EvStatusUpdate upd r) /\
    Name upd = Name b /\ Namespace upd = Namespace b /\
    CallbackStatus (Status upd) = "Failed" /\
    (r = None ->
     exists sb,
       builds (outWorld (reconcile env req w)) !! (Namespace b, Name b) = Some sb /\
       Status sb = Status upd).
Proof.
  mcases; rec_simpl; intros; try discriminate.
  all: eexists _, _, _; split; [reflexivity|]; split; [reflexivity|].
  all: rec_simpl; repeat (split; [reflexivity|]).
  all: intros; try discriminate.
  all: match goal with
       | H : storeUpdateStatus _ 1 _ _ = inl _ |- _ =>
           apply storeUpdateStatus_inl in H as (stored & _ & -> & _)
       end.
  all: rec_simpl; rewrite lookup_insert_eq; eexists; split; reflexivity.
Qed.

(** C9: when the callback dispatch fails the invocation returns no error
    and asks for no deletion, every Build stays in the store, and the last
    thing the invocation does is a status update that carries
    callbackStatus = "Failed"; when the store accepts that update the stored
    status is the one it carries. *)
Theorem callback_failure_not_escalated env req w :
  let o := reconcile env req w in
  callbackOutcome o = Some false ->
  outErr o = None /\
  outResult o = {| Requeue := false |} /\
  deleteIssued o = false /\
  (forall k, is_Some (builds w !! k) -> is_Some (builds (outWorld o) !! k)) /\
  exists b upd r,
    observedBuild env req w = Some b /\
    last (outTrace o) = Some (EvStatusUpdate upd r) /\
    Name upd = Name b /\ Namespace upd = Namespace b /\
    CallbackStatus (Status upd) = "Failed" /\
    (r = None ->
     exists sb,
       builds (outWorld o) !! (Namespace b, Name b) = Some sb /\
       Status sb = Status upd).
Proof.
  intros o Hc. subst o.
  destruct (callback_failure_quiet env req w Hc) as (He & Hr & Hd).
  split; [exact He|]. split; [exact Hr|]. split; [exact Hd|].
  split.
  - intros k. apply retained_without_delete. exact Hd.
  - apply callback_failure_recorded. exact Hc.
Qed.

Lemma callback_failure_not_escalated_witness :
  let w := Examples.mkWorld
             (Examples.mkBuild Examples.hookSpec
                (Examples.statusIn BuildPhaseRunning None))
             (Some (Examples.mkJob 1 0 (Some 500))) in
  outErr (reconcile (Examples.calmEnv 503) Examples.key w) = None.
Proof.
  intros w.
  apply (callback_failure_not_escalated (Examples.calmEnv 503) Examples.key w).
  reflexivity.
Defined.

(** ** The callback dispatcher *)

Lemma callbackHeader_authorization cb :
  callbackHeader cb !! "Authorization" =
  if String.eqb (AuthToken cb) EmptyString then None
  else Some ("Bearer " +:+ AuthToken cb).
Proof.
  unfold callbackHeader.
  destruct (String.eqb (AuthToken cb) EmptyString); cbn [negb].
  - rewrite lookup_insert_ne by discriminate. apply lookup_empty.
  - apply lookup_insert_eq.
Qed.

Lemma callbackHeader_content_type cb :
  callbackHeader cb !! "Content-Type" = Some "application/json".
Proof.
  unfold callbackHeader.
  destruct (String.eqb (AuthToken cb) EmptyString); cbn [negb].
  - apply lookup_insert_eq.
  - rewrite lookup_insert_ne by discriminate. apply lookup_insert_eq.
Qed.

(** C8, as the code has it: [sendCallback] sends at most one request and
    never a second one; it sends exactly one when the payload is encoded
    and the URL parses, and none otherwise. It returns an error exactly
    when no request could be built, the exchange fails (a timeout
    included) or the status code is outside [200,300). The request is a
    POST with a timeout of 10 seconds; it has an Authorization header
    exactly when the auth token is not empty, and the header is then
    "Bearer " followed by the token. *)
Theorem sendCallback_single_shot env build cb phase s :
  let r := fst (sendCallback env build cb phase s) in
  let s' := snd (sendCallback env build cb phase s) in
  world s' = world s /\
  exists sent,
    trace s' = (trace s ++ sent)%list /\
    (attempts sent <= 1)%nat /\
    match requestBuilt env build cb phase s with
    | None => sent = [] /\ r <> None
    | Some req =>
        sent = [EvHTTPDo req (httpDo env req)] /\
        Method req = "POST" /\
        Timeout req = 10 * Second /\
        Header req !! "Content-Type" = Some "application/json" /\
        Header req !! "Authorization" =
          (if String.eqb (AuthToken cb) EmptyString then None
           else Some ("Bearer " +:+ AuthToken cb)) /\
        (r = None <-> exists code, httpDo env req = inl code /\ 200 <= code < 300)
    end.
Proof.
  unfold requestBuilt, sendCallback, client_Do, time_Now, bind, ret, emit.
  cbn [fst snd world trace ticks updates].
  destruct (jsonMarshal env _) as [jsonPayload|e].
  2:{ cbn. split; [reflexivity|]. exists []. rewrite app_nil_r. 
      repeat split; auto; discriminate. }
  destruct (urlParseErr env (URL cb)) as [e|].
  { cbn. split; [reflexivity|]. exists []. rewrite app_nil_r.
    repeat split; auto; discriminate. }
  set (req := callbackRequest cb jsonPayload).
  assert (Hh : Header req !! "Authorization" =
          (if String.eqb (AuthToken cb) EmptyString then None
           else Some ("Bearer " +:+ AuthToken cb)))
    by apply callbackHeader_authorization.
  assert (Hc : Header req !! "Content-Type" = Some "application/json")
    by apply callbackHeader_content_type.
  destruct (httpDo env req) as [code|e] eqn:Hdo.
  - destruct ((code <? 200) || (code >=? 300)) eqn:Hcode; cbn.
    + split; [reflexivity|]. eexists. split; [reflexivity|].
      split; [cbn; lia|]. repeat (split; [reflexivity || assumption|]).
      split; [discriminate|]. intros (c & [= <-] & Hr).
      apply orb_true_iff in Hcode as [H%Z.ltb_lt | H%Z.geb_le]; lia.
    + split; [reflexivity|]. eexists. split; [reflexivity|].
      split; [cbn; lia|]. repeat (split; [reflexivity || assumption|]).
      split; [|reflexivity]. intros _. exists code. split; [reflexivity|].
      apply orb_false_iff in Hcode as [H1%Z.ltb_ge H2].
      rewrite Z.geb_leb in H2. apply Z.leb_gt in H2. lia.
  - cbn. split; [reflexivity|]. eexists. split; [reflexivity|].
    split; [cbn; lia|]. repeat (split; [reflexivity || assumption|]).
    split; [discriminate|]. intros (c & [=] & _).
Qed.

(** C8, as stated, fails: with a callback URL that [http.NewRequest]
    refuses, [sendCallback] returns an error although no HTTP request was
    sent or answered; the number of attempts is 0, not 1. *)
Lemma sendCallback_without_attempt :
  let out := sendCallback (Examples.strictURLEnv 200)
               (Examples.mkBuild Examples.plainSpec
                  (Examples.statusIn BuildPhaseSucceeded (Some 500)))
               Examples.brokenHook BuildPhaseSucceeded
               (initSt (Examples.mkWorld
                          (Examples.mkBuild Examples.plainSpec
                             (Examples.statusIn BuildPhaseSucceeded (Some 500)))
                          None)) in
  fst out = Some (ErrOther "net/url: invalid control character in URL") /\
  attempts (trace (snd out)) = 0%nat.
Proof. vm_compute. split; reflexivity. Qed.

(** ** Runs *)

Lemma update_lookup env n w upd w' k b' :
  storeUpdateStatus env n w upd = inl w' ->
  builds w' !! k = Some b' ->
  (k = (Namespace upd, Name upd) /\
   exists stored, builds w !! k = Some stored /\ b' = withStatus stored (Status upd)) \/
  (k <> (Namespace upd, Name upd) /\ builds w !! k = Some b').
Proof.
  intros (stored & Hs & -> & _)%storeUpdateStatus_inl.
  destruct (decide ((Namespace upd, Name upd) = k)) as [<-|Hne].
  - rewrite lookup_insert_eq. intros [= <-]. left. eauto.
  - rewrite lookup_insert_ne by exact Hne. intros H. right. split; [congruence | exact H].
Qed.

Lemma delete_lookup env w key w' k b' :
  storeDelete env w key = inl w' ->
  builds w' !! k = Some b' -> builds w !! k = Some b'.
Proof.
  intros [-> _]%storeDelete_inl.
  destruct (decide (key = k)) as [<-|Hne].
  - rewrite lookup_delete_eq. discriminate.
  - rewrite lookup_delete_ne by exact Hne. auto.
Qed.

Lemma create_lookup env w j w' k b' :
  storeCreate env w j = inl w' ->
  builds w' !! k = Some b' -> builds w !! k = Some b'.
Proof. intros ->%storeCreate_inl. auto. Qed.

Ltac back_to_start :=
  repeat match goal with
  | Hs : storeDelete _ ?w _ = inl ?w', H : builds ?w' !! _ = Some _ |- _ =>
      apply (delete_lookup _ _ _ _ _ _ Hs) in H
  | Hs : storeCreate _ ?w _ = inl ?w', H : builds ?w' !! _ = Some _ |- _ =>
      apply (create_lookup _ _ _ _ _ _ Hs) in H
  | Hs : storeUpdateStatus _ _ ?w _ = inl ?w', H : builds ?w' !! _ = Some _ |- _ =>
      apply (update_lookup _ _ _ _ _ _ _ Hs) in H
        as [(-> & ? & H & ->) | (? & H)]
  end.

Ltac same_lookup :=
  repeat match goal with
  | H1 : builds ?w !! ?k = Some ?a, H2 : builds ?w !! ?k = Some ?c |- _ =>
      tryif constr_eq a c then fail
      else (let Hx := fresh in
            pose proof (eq_trans (eq_sym H1) H2) as Hx;
            injection Hx as <-; clear H2)
  end.

Ltac rewrite_answers :=
  repeat match goal with
  | H : getJobErr _ = _ |- _ => rewrite H
  | H : jobs _ !! _ = _ |- _ => rewrite H
  | H : (_ >? 0) = _ |- _ => rewrite H
  end.

Ltac transition_side :=
  rec_simpl; mred; rewrite_answers;
  first [reflexivity | assumption | bool_facts; congruence].

Ltac solve_transition :=
  first [ solve [exfalso; bool_facts; congruence]
        | solve [eapply JobSubmitted; transition_side]
        | solve [eapply JobObserved; transition_side] ].

(** What an invocation leaves of a stored Build: the Build with its status
    unchanged, or, for the Build of the request, with a status reached by a
    [transition]. *)
Lemma reconcile_status env req w k b' :
  wfWorld w ->
  builds (outWorld (reconcile env req w)) !! k = Some b' ->
  exists b,
    builds w !! k = Some b /\
    Name b' = Name b /\ Namespace b' = Namespace b /\
    ((Phase (Status b') = Phase (Status b) /\
      CompletionTime (Status b') = CompletionTime (Status b)) \/
     (k = req /\ transition env w b (Status b'))).
Proof.
  intros Hwf. destruct req as [ns n].
  mcases; rec_simpl; intros Hk.
  all: try (eexists; split; [exact Hk|]; auto; fail).
  all: match goal with
       | H : builds _ !! (?a, ?c) = Some ?b, Hw : wfWorld _ |- _ =>
           destruct (Hw a c b H) as [Hns Hn]
       end.
  all: back_to_start; rec_simpl.
  all: try (eexists; split; [eassumption|]; rec_simpl; auto; fail).
  all: rewrite ?Hns, ?Hn in *; simplify_eq.
  all: eexists; (split; [eassumption|]); rec_simpl.
  all: split; [reflexivity|]; split; [reflexivity|]; right; split; [reflexivity|].
  all: same_lookup.
  all: solve_transition.
Qed.

Lemma targetPhase_cases stored js :
  targetPhase stored js = stored \/
  targetPhase stored js = BuildPhaseSucceeded \/
  targetPhase stored js = BuildPhaseFailed.
Proof.
  unfold targetPhase.
  destruct (Succeeded js >? 0); [auto|].
  destruct (Failed js >? 0); auto.
Qed.

Lemma transition_phase env w b st' :
  transition env w b st' ->
  (isTerminal (Phase (Status b)) = false /\ Phase st' = BuildPhaseRunning) \/
  (Phase st' <> Phase (Status b) /\
   (Phase st' = BuildPhaseSucceeded \/ Phase st' = BuildPhaseFailed)).
Proof.
  intros [e _ _ Ht Hp _ | j _ Hp Hne _]; [left; auto|].
  right. split; [exact Hne|].
  destruct (targetPhase_cases (Phase (Status b)) (jobStatus j)) as [H|H];
    [congruence|]. rewrite Hp. exact H.
Qed.

Lemma reconcile_wf env req w :
  wfWorld w -> wfWorld (outWorld (reconcile env req w)).
Proof.
  intros Hwf ns n b' Hk.
  destruct (reconcile_status env req w (ns, n) b' Hwf Hk)
    as (b & Hb & -> & -> & _).
  exact (Hwf ns n b Hb).
Qed.

Lemma step_wf st w : wfWorld w -> wfWorld (step st w).
Proof. intros Hwf. apply reconcile_wf. exact Hwf. Qed.

Lemma run_wf steps : forall w, wfWorld w -> wfWorld (run steps w).
Proof.
  induction steps as [|st steps IH]; intros w Hwf; [exact Hwf|].
  cbn [run]. apply IH, step_wf, Hwf.
Qed.

Lemma mkWorld_wf s st j : wfWorld (Examples.mkWorld (Examples.mkBuild s st) j).
Proof.
  intros ns n b. unfold Examples.mkWorld. cbn [builds].
  intros [[= <- <-] <-]%lookup_singleton_Some. split; reflexivity.
Qed.

(** One step of a run moves a stored phase in one of three ways. *)
Lemma step_phase st w k p p' :
  wfWorld w ->
  phaseAt w k = Some p -> phaseAt (step st w) k = Some p' ->
  p' = p \/
  (isTerminal p = false /\ p' = BuildPhaseRunning /\
   exists b e,
     builds w !! k = Some b /\
     observedJob (stepEnv st) (observe st w) b = inr e /\ IsNotFound e = true) \/
  (p' <> p /\
   exists b j,
     builds w !! k = Some b /\
     observedJob (stepEnv st) (observe st w) b = inl j /\
     p' = targetPhase p (jobStatus j) /\
     (p' = BuildPhaseSucceeded \/ p' = BuildPhaseFailed)).
Proof.
  unfold phaseAt, step. intros Hwf Hp Hp'.
  destruct (builds (outWorld _) !! k) as [b'|] eqn:Hk; [|discriminate].
  injection Hp' as <-.
  apply reconcile_status in Hk as (b & Hb & _ & _ & Hst); [|exact Hwf].
  cbn [observe builds] in Hb. rewrite Hb in Hp. injection Hp as <-.
  destruct Hst as [[Hsame _] | [_ Ht]]; [left; exact Hsame|].
  right. destruct Ht as [e He Hnf Hterm Hrun _ | j Hj Htarget Hne _].
  - left. split; [exact Hterm|]. split; [exact Hrun|]. exists b, e. auto.
  - right. split; [exact Hne|]. exists b, j.
    repeat split; try assumption.
    destruct (targetPhase_cases (Phase (Status b)) (jobStatus j)) as [H|H];
      [congruence | rewrite Htarget; exact H].
Qed.

Lemma isTerminal_cases p :
  isTerminal p = true <-> p = BuildPhaseSucceeded \/ p = BuildPhaseFailed.
Proof.
  unfold isTerminal. rewrite orb_true_iff, !String.eqb_eq. reflexivity.
Qed.

Lemma step_absent st w k :
  wfWorld w -> phaseAt w k = None -> phaseAt (step st w) k = None.
Proof.
  unfold phaseAt, step. intros Hwf Hnone.
  destruct (builds (outWorld _) !! k) as [b'|] eqn:Hk; [|reflexivity].
  apply reconcile_status in Hk as (b & Hb & _); [|exact Hwf].
  cbn [observe builds] in Hb. rewrite Hb in Hnone. discriminate Hnone.
Qed.

Lemma run_absent steps : forall w k,
  wfWorld w -> phaseAt w k = None -> phaseAt (run steps w) k = None.
Proof.
  induction steps as [|st steps IH]; intros w k Hwf Hnone; [exact Hnone|].
  cbn [run]. apply IH; [apply step_wf, Hwf | apply step_absent; assumption].
Qed.

Lemma run_keeps_terminal steps : forall w k p,
  wfWorld w -> phaseAt w k = Some p -> isTerminal p = true ->
  match phaseAt (run steps w) k with
  | Some p' => isTerminal p' = true
  | None => True
  end.
Proof.
  induction steps as [|st steps IH]; intros w k p Hwf Hp Ht.
  - cbn [run]. rewrite Hp. exact Ht.
  - cbn [run].
    destruct (phaseAt (step st w) k) as [p1|] eqn:H1.
    + apply (IH (step st w) k p1 (step_wf st w Hwf) H1).
      destruct (step_phase st w k p p1 Hwf Hp H1)
        as [-> | [[Hn _] | [_ (b & j & _ & _ & _ & Hs)]]].
      * exact Ht.
      * congruence.
      * apply isTerminal_cases. exact Hs.
    + rewrite (run_absent steps (step st w) k (step_wf st w Hwf) H1). exact I.
Qed.

(** C2, as the code has it: one step of a run leaves a stored phase as it
    is, or moves a phase that is neither Succeeded nor Failed to Running,
    or moves any phase to the one the counters of the job stand for,
    Succeeded or Failed. So along every run a Build that has reached
    Succeeded or Failed is in one of these two phases, or deleted, ever
    after: it never goes back to Pending or Running. *)
Theorem terminal_phase_never_reopens :
  (forall st w k p p',
     wfWorld w ->
     phaseAt w k = Some p -> phaseAt (step st w) k = Some p' ->
     p' = p \/
     (isTerminal p = false /\ p' = BuildPhaseRunning /\
      exists b e,
        builds w !! k = Some b /\
        observedJob (stepEnv st) (observe st w) b = inr e /\ IsNotFound e = true) \/
     (p' <> p /\
      exists b j,
        builds w !! k = Some b /\
        observedJob (stepEnv st) (observe st w) b = inl j /\
        p' = targetPhase p (jobStatus j) /\
        (p' = BuildPhaseSucceeded \/ p' = BuildPhaseFailed))) /\
  (forall steps w k p,
     wfWorld w ->
     phaseAt w k = Some p ->
     p = BuildPhaseSucceeded \/ p = BuildPhaseFailed ->
     match phaseAt (run steps w) k with
     | Some p' => p' = BuildPhaseSucceeded \/ p' = BuildPhaseFailed
     | None => True
     end).
Proof.
  split.
  - intros st w k p p'. apply step_phase.
  - intros steps w k p Hwf Hp Ht. apply isTerminal_cases in Ht.
    pose proof (run_keeps_terminal steps w k p Hwf Hp Ht) as H.
    destruct (phaseAt (run steps w) k); [apply isTerminal_cases, H | exact I].
Qed.

Lemma terminal_phase_never_reopens_witness :
  match phaseAt
          (run [Runs.invoke (Runs.reports 0 0 None); Runs.invoke Runs.quiet]
             (Examples.mkWorld
                (Examples.mkBuild Examples.plainSpec
                   (Examples.statusIn BuildPhaseFailed (Some 500)))
                (Some (Examples.mkJob 0 1 None))))
          Examples.key with
  | Some p' => p' = BuildPhaseSucceeded \/ p' = BuildPhaseFailed
  | None => True
  end.
Proof.
  apply (proj2 terminal_phase_never_reopens
           [Runs.invoke (Runs.reports 0 0 None); Runs.invoke Runs.quiet]
           _ Examples.key BuildPhaseFailed).
  - apply mkWorld_wf.
  - reflexivity.
  - right. reflexivity.
Defined.

(** C2, as stated, fails. A Build starts in the empty phase, not in
    Pending. After a conflict on the first status update the next
    invocation takes it from the empty phase to Succeeded. A job that
    counts a failed pod and then a succeeded one takes it from Failed to
    Succeeded, and counters that go from succeeded to failed take it from
    Succeeded to Failed. *)
Lemma phase_moves_outside_the_chain :
  phaseAt Runs.submitted Examples.key = Some EmptyString /\
  phaseAt (run [Runs.invokeIn Runs.conflictEnv Runs.quiet] Runs.submitted)
    Examples.key = Some EmptyString /\
  phaseAt (run [Runs.invokeIn Runs.conflictEnv Runs.quiet;
                Runs.invoke (Runs.reports 1 0 (Some 77))] Runs.submitted)
    Examples.key = Some BuildPhaseSucceeded /\
  phaseAt (run [Runs.invoke Runs.quiet; Runs.invoke (Runs.reports 0 1 None)]
             Runs.submitted)
    Examples.key = Some BuildPhaseFailed /\
  phaseAt (run [Runs.invoke Runs.quiet; Runs.invoke (Runs.reports 0 1 None);
                Runs.invoke (Runs.reports 1 1 (Some 77))] Runs.submitted)
    Examples.key = Some BuildPhaseSucceeded /\
  phaseAt (run [Runs.invoke Runs.quiet; Runs.invoke (Runs.reports 1 0 (Some 77))]
             Runs.submitted)
    Examples.key = Some BuildPhaseSucceeded /\
  phaseAt (run [Runs.invoke Runs.quiet; Runs.invoke (Runs.reports 1 0 (Some 77));
                Runs.invoke (Runs.reports 0 1 None)] Runs.submitted)
    Examples.key = Some BuildPhaseFailed.
Proof. vm_compute. repeat split. Qed.

(** ** The completion time *)

(** On a job with failed pods and no succeeded one, [syncStatus] takes the
    completion time from the clock, whatever the job reports. *)
Lemma syncStatus_failed env stored js s :
  Succeeded js <= 0 -> 0 < Failed js ->
  fst (syncStatus env stored js s) = (BuildPhaseFailed, Some (clock env (ticks s))).
Proof.
  intros Hs Hf. unfold syncStatus, bind, ret, time_Now.
  destruct (Succeeded js >? 0) eqn:E1; [apply Z.gtb_lt in E1; lia|].
  destruct (Failed js >? 0) eqn:E2; [reflexivity|].
  rewrite Z.gtb_ltb in E2. apply Z.ltb_ge in E2. lia.
Qed.

(** On a job with a succeeded pod, [syncStatus] copies the completion time
    of the job, set or not. *)
Lemma syncStatus_succeeded env stored js s :
  0 < Succeeded js ->
  syncStatus env stored js s = ((BuildPhaseSucceeded, jobCompletionTime js), s).
Proof.
  intros Hs. unfold syncStatus, ret.
  destruct (Succeeded js >? 0) eqn:E1; [reflexivity|].
  rewrite Z.gtb_ltb in E1. apply Z.ltb_ge in E1. lia.
Qed.

Lemma completion_time_preserved steps : forall w,
  wfWorld w ->
  (forall k b, builds w !! k = Some b ->
     (CompletionTime (Status b) <> None -> isTerminal (Phase (Status b)) = true) /\
     (Phase (Status b) = BuildPhaseFailed -> CompletionTime (Status b) <> None)) ->
  forall k b, builds (run steps w) !! k = Some b ->
    (CompletionTime (Status b) <> None -> isTerminal (Phase (Status b)) = true) /\
    (Phase (Status b) = BuildPhaseFailed -> CompletionTime (Status b) <> None).
Proof.
  induction steps as [|st steps IH]; intros w Hwf Hinv; [exact Hinv|].
  cbn [run]. apply IH; [apply step_wf, Hwf|].
  intros k b' Hk. unfold step in Hk.
  apply reconcile_status in Hk as (b & Hb & _ & _ & Hst); [|exact Hwf].
  cbn [observe builds] in Hb. destruct (Hinv k b Hb) as [H1 H2].
  destruct Hst as [[Hp Hc] | [_ Ht]].
  - rewrite Hp, Hc. auto.
  - destruct Ht as [e _ _ Hterm Hrun Hc | j _ Htarget Hne Hc].
    + rewrite Hc, Hrun. split.
      * intros Hset. apply H1 in Hset. congruence.
      * discriminate.
    + split.
      * intros _. apply isTerminal_cases.
        destruct (targetPhase_cases (Phase (Status b)) (jobStatus j)) as [H|H];
          [congruence | rewrite Htarget; exact H].
      * intros Hf. rewrite Hc. rewrite Htarget in Hf. unfold targetPhase in Hf.
        destruct (Succeeded (jobStatus j) >? 0); [discriminate Hf | discriminate].
Qed.

(** What does hold of the completion time along a run from fresh Builds:
    it is set only in a terminal phase, and it is set in the phase
    Failed. *)
Lemma completion_time_sound steps w k b :
  wfWorld w -> freshWorld w ->
  builds (run steps w) !! k = Some b ->
  (CompletionTime (Status b) <> None -> isTerminal (Phase (Status b)) = true) /\
  (Phase (Status b) = BuildPhaseFailed -> CompletionTime (Status b) <> None).
Proof.
  intros Hwf Hfresh. apply completion_time_preserved; [exact Hwf|].
  intros k0 b0 Hb. rewrite (Hfresh k0 b0 Hb). cbn.
  split; [congruence | discriminate].
Qed.

(** C4: a job that reports a succeeded pod and no completion time leaves
    the Build in the phase Succeeded with no completion time. *)
Theorem succeeded_without_completion_time :
  let w := run [Runs.invoke Runs.quiet; Runs.invoke (Runs.reports 1 0 None)]
             Runs.submitted in
  phaseAt w Examples.key = Some BuildPhaseSucceeded /\
  completionAt w Examples.key = Some None.
Proof. vm_compute. split; reflexivity. Qed.

(** C5: a job that reports a failed pod and the completion time 500 leaves
    the Build in the phase Failed with the time of the clock, 1000. *)
Theorem failed_takes_clock_time :
  let w := run [Runs.invoke Runs.quiet; Runs.invoke (Runs.reports 0 1 (Some 500))]
             Runs.submitted in
  phaseAt w Examples.key = Some BuildPhaseFailed /\
  completionAt w Examples.key = Some (Some 1000) /\
  Some 1000 <> Some 500.
Proof. vm_compute. repeat split. discriminate. Qed.

(** ** Scenarios *)

(** The happy path: the job succeeds, the webhook answers 200 and the
    Build is deleted. *)
Example scenario_success_deletes :
  phaseAt (run [Runs.invoke Runs.quiet; Runs.invoke (Runs.reports 1 0 (Some 500))]
             Runs.submittedWithHook) Examples.key = None.
Proof. vm_compute. reflexivity. Qed.

(** When the store refuses the deletion the invocation returns the error of
    the store and the Build stays, with its callback recorded as sent. *)
Example scenario_refused_deletion :
  let o := reconcile Examples.noDeleteEnv Examples.key
             (Examples.mkWorld
                (Examples.mkBuild Examples.hookSpec
                   (Examples.statusIn BuildPhaseRunning None))
                (Some (Examples.mkJob 1 0 (Some 500)))) in
  deleteIssued o = true /\
  outErr o = Some (ErrOther "the server is currently unable to handle the request") /\
  (CallbackStatus <$> (Status <$> builds (outWorld o) !! Examples.key)) = Some "Success".
Proof. vm_compute. repeat split. Qed.

(** * Further properties *)

(** ** The job builder, continued *)

(** X1: the name of the job is a one-to-one function of the name of the
    Build, so two Builds of a namespace never share a job. *)
Theorem jobNameOf_injective (n1 n2 : string) :
  jobNameOf n1 = jobNameOf n2 -> n1 = n2.
Proof. unfold jobNameOf. cbn. intros H. injection H as H. exact H. Qed.

Lemma jobNameOf_injective_witness : "demo" = "demo".
Proof. apply (jobNameOf_injective "demo" "demo"). reflexivity. Defined.

Lemma constructJob_shape sch b j :
  constructJob sch b = inl j ->
  exists v k,
    buildGVK sch = Some (v, k) /\
    j = {| jobName := jobNameOf (Name b);
           jobNamespace := Namespace b;
           OwnerReferences :=
             [ {| orAPIVersion := v; orKind := k; orName := Name b;
                  orUID := UID b; orController := true;
                  orBlockOwnerDeletion := true |} ];
           jobPodSpec := jobPodSpec j;
           jobStatus := emptyJobStatus |}.
Proof.
  unfold constructJob, SetControllerReference.
  destruct (buildGVK sch) as [[v k]|]; [|discriminate].
  intros H. injection H as <-. exists v, k. split; reflexivity.
Qed.

(** X2: [constructJob] fails exactly when the scheme has no kind for
    [Build]; the job it returns otherwise is named after the Build, lives
    in its namespace, has no status yet and is owned by that Build alone,
    through one controller reference that blocks the deletion of the owner. *)
Theorem constructJob_owned_by_build (sch : Scheme) (b : Build) :
  (buildGVK sch = None <-> exists e, constructJob sch b = inr e) /\
  (forall j, constructJob sch b = inl j ->
     (jobNamespace j, jobName j) = (Namespace b, jobNameOf (Name b)) /\
     jobStatus j = emptyJobStatus /\
     exists r, OwnerReferences j = [r] /\
       orName r = Name b /\ orUID r = UID b /\
       orController r = true /\ orBlockOwnerDeletion r = true /\
       buildGVK sch = Some (orAPIVersion r, orKind r)).
Proof.
  split.
  - unfold constructJob, SetControllerReference.
    destruct (buildGVK sch) as [[v k]|]; split.
    + discriminate.
    + intros [e H]. discriminate H.
    + eauto.
    + reflexivity.
  - intros j (v & k & Hs & Hj)%constructJob_shape. rewrite Hj. cbn.
    split; [reflexivity|]. split; [reflexivity|].
    eexists. split; [reflexivity|]. cbn. auto 10.
Qed.

(** X3: the pod of the job is well formed whatever the spec: the volumes
    it declares have distinct names and every volume a container mounts is
    declared. It refers to a secret exactly when [Spec.PushSecret] is not
    empty, and then to that secret only, as the volume registry-auth. *)
Theorem constructJob_pod_well_formed (sch : Scheme) (b : Build) (j : Job) :
  constructJob sch b = inl j ->
  List.NoDup (declaredVolumes (jobPodSpec j)) /\
  (forall v, In v (mountedVolumes (jobPodSpec j)) ->
             In v (declaredVolumes (jobPodSpec j))) /\
  secretVolumes (jobPodSpec j) =
    (if String.eqb (PushSecret (Spec b)) EmptyString then []
     else [("registry-auth", PushSecret (Spec b))]).
Proof.
  unfold constructJob, SetControllerReference.
  destruct (buildGVK sch) as [[v k]|]; [|discriminate].
  intros H. injection H as <-.
  destruct (String.eqb (PushSecret (Spec b)) EmptyString); cbn.
  - split; [|split; [|reflexivity]].
    + repeat (apply List.NoDup_cons; [cbn; intuition discriminate|]).
      apply List.NoDup_nil.
    + intuition.
  - split; [|split; [|reflexivity]].
    + repeat (apply List.NoDup_cons; [cbn; intuition discriminate|]).
      apply List.NoDup_nil.
    + intuition.
Qed.

Lemma constructJob_pod_well_formed_witness :
  exists j,
    constructJob Examples.kairosScheme
      (Examples.mkBuild Examples.hookSpec emptyStatus) = inl j /\
    secretVolumes (jobPodSpec j) = [("registry-auth", "regcred")].
Proof.
  eexists. split; [reflexivity|].
  apply (constructJob_pod_well_formed Examples.kairosScheme
           (Examples.mkBuild Examples.hookSpec emptyStatus)).
  reflexivity.
Defined.

(** ** The reconciler, continued *)

(** X4: a failed read stops the invocation before any effect. When the
    Build is absent the invocation returns no error; any other error of
    the read of the Build, and any error of the read of the job other than
    not-found, is returned as it is. *)
Theorem failed_reads_have_no_effect env req w :
  (forall e, buildLookup env req w = inr e ->
     reconcile env req w =
     {| outResult := {| Requeue := false |};
        outErr := if IsNotFound e then None else Some e;
        outWorld := w; outTrace := [] |}) /\
  (forall b e, buildLookup env req w = inl b ->
     observedJob env w b = inr e -> IsNotFound e = false ->
     reconcile env req w =
     {| outResult := {| Requeue := false |}; outErr := Some e;
        outWorld := w; outTrace := [] |}).
Proof.
  unfold buildLookup. split.
  - intros e He. mcases; try discriminate; try reflexivity.
    all: destruct e; try discriminate; reflexivity.
  - intros b e Hb He Hnf. mcases; try discriminate; try reflexivity.
Qed.

Lemma storeCreate_jobs env w j w' :
  storeCreate env w j = inl w' ->
  jobs w !! (jobNamespace j, jobName j) = None /\
  jobs w' = <[(jobNamespace j, jobName j) := j]> (jobs w).
Proof.
  unfold storeCreate. destruct (createErr env); [discriminate|].
  destruct (jobs w !! _) eqn:E; [discriminate|].
  intros H. injection H as <-. auto.
Qed.

Ltac lookup_clash :=
  match goal with
  | H1 : builds ?w !! ?k = Some _, H2 : builds ?w !! ?k = None |- _ =>
      pose proof (eq_trans (eq_sym H1) H2); discriminate
  | H1 : jobs ?w !! ?k = Some _, H2 : jobs ?w !! ?k = None |- _ =>
      pose proof (eq_trans (eq_sym H1) H2); discriminate
  end.

(** X5: the submission of the job. When the job is not found, the stored
    phase is not terminal and the store accepts the creation and the
    status update, the invocation stores the job that [constructJob]
    builds under the key it looks jobs up by, moves the Build to Running
    with the name of the job as its reference, leaves the rest of the
    status as it was, and asks to be invoked again. *)
Theorem job_submission env req w b e job :
  wfWorld w ->
  buildLookup env req w = inl b ->
  observedJob env w b = inr e -> IsNotFound e = true ->
  isTerminal (Phase (Status b)) = false ->
  constructJob (scheme env) b = inl job ->
  createErr env = None ->
  jobs w !! (Namespace b, jobNameOf (Name b)) = None ->
  updateErr env 0 = None ->
  let running :=
    withStatus b
      {| Phase := BuildPhaseRunning; JobRef := jobNameOf (Name b);
         CallbackStatus := CallbackStatus (Status b);
         CompletionTime := CompletionTime (Status b) |} in
  reconcile env req w =
  {| outResult := {| Requeue := true |};
     outErr := None;
     outWorld :=
       {| builds := <[req := running]> (builds w);
          jobs := <[(Namespace b, jobNameOf (Name b)) := job]> (jobs w) |};
     outTrace := [EvCreate job None; EvStatusUpdate running None] |}.
Proof.
  intros Hwf Hb He Hnf Ht Hj Hc Hfree Hu running. subst running.
  destruct req as [ns n]. unfold buildLookup in Hb.
  mcases; try discriminate; try congruence.
  all: match goal with
       | H : builds _ !! (?a, ?c) = Some ?b, Hw : wfWorld _ |- _ =>
           destruct (Hw a c b H) as [Hns Hn]
       end.
  all: match goal with
       | H : constructJob _ _ = inl _ |- _ =>
           destruct (constructJob_inv _ _ _ H) as (_ & Hjn & Hjns)
       end.
  all: unfold storeCreate, storeUpdateStatus in *; rec_simpl.
  all: rewrite ?Hc, ?Hjn, ?Hjns, ?Hfree, ?Hu in *; try discriminate.
  all: simplify_eq; cbn [builds jobs] in *.
  all: repeat destr_inner; try lookup_clash; same_lookup; simplify_eq.
  all: reflexivity.
Qed.

Lemma job_submission_witness :
  outResult (reconcile (Examples.calmEnv 200) Examples.key Runs.submitted) =
  {| Requeue := true |}.
Proof.
  destruct (constructJob Examples.kairosScheme
              (Examples.mkBuild Examples.plainSpec emptyStatus)) as [job|e] eqn:Hj.
  - rewrite (job_submission (Examples.calmEnv 200) Examples.key Runs.submitted
               (Examples.mkBuild Examples.plainSpec emptyStatus) ErrNotFound job
               (mkWorld_wf _ _ _) eq_refl eq_refl eq_refl eq_refl Hj
               eq_refl eq_refl eq_refl).
    reflexivity.
  - vm_compute in Hj. discriminate Hj.
Defined.

(** X6: an invocation that returns an error has left every Build as it
    was, unless the error is the one of the deletion it asked for. *)
Theorem errors_leave_builds_untouched env req w :
  outErr (reconcile env req w) <> None ->
  deleteIssued (reconcile env req w) = false ->
  builds (outWorld (reconcile env req w)) = builds w.
Proof.
  mcases; rec_simpl; intros Herr Hdel; try congruence.
  all: try (destruct e; cbn in Herr; congruence).
  all: repeat match goal with
       | H : storeCreate _ _ _ = inl _ |- _ => apply storeCreate_inl in H
       end; congruence.
Qed.

Lemma errors_leave_builds_untouched_witness :
  builds (outWorld (reconcile Runs.conflictEnv Examples.key Runs.submitted)) =
  builds Runs.submitted.
Proof.
  apply (errors_leave_builds_untouched Runs.conflictEnv Examples.key Runs.submitted).
  - vm_compute. discriminate.
  - reflexivity.
Defined.

(** X7: the invocation asks to be invoked again exactly when it has
    created the job and recorded it in the status, and it returns no error
    then. *)
Theorem requeue_iff_submitted env req w :
  let o := reconcile env req w in
  (Requeue (outResult o) = true <->
   exists job upd, outTrace o = [EvCreate job None; EvStatusUpdate upd None]) /\
  (Requeue (outResult o) = true -> outErr o = None).
Proof.
  mcases; rec_simpl; (split; [split|]); try discriminate; try reflexivity;
    try (intros (? & ? & [=]); fail); eauto.
Qed.

(** X8: what one invocation does at most: one creation of a job, two
    status updates, one call of the callback with one HTTP request, and one
    deletion. An invocation that creates a job sends no callback and
    deletes nothing, and a deletion comes after a callback that was
    answered. *)
Theorem effects_are_bounded env req w :
  let t := outTrace (reconcile env req w) in
  (count isCreate t <= 1)%nat /\
  (count isUpdate t <= 2)%nat /\
  (count isSendCallback t <= 1)%nat /\
  (count isHTTPDo t <= count isSendCallback t)%nat /\
  (count isDelete t <= count isHTTPDo t)%nat /\
  (count isCreate t + count isSendCallback t <= 1)%nat.
Proof.
  mcases; cbn; lia.
Qed.

Ltac in_cases H :=
  cbn [In] in H;
  repeat (destruct H as [H | H]; [try discriminate H|]);
  try contradiction.

(** X9: the callback comes after the phase is stored. Whenever the
    invocation calls the callback, its first effect was a status update
    that the store accepted and that carries the terminal phase the
    callback reports, the phase computed from the job; the body of a
    request it sends is the encoding of the name, the namespace and the
    output image of the Build, that phase and a reading of the clock.
    When the store refuses that status update the error is returned and
    nothing else happens. *)
Theorem callback_follows_stored_phase env req w :
  let o := reconcile env req w in
  (forall phase r, In (EvSendCallback phase r) (outTrace o) ->
     exists b upd rest,
       buildLookup env req w = inl b /\
       outTrace o = EvStatusUpdate upd None :: rest /\
       upd = withStatus b (Status upd) /\
       Phase (Status upd) = phase /\
       computedPhase env req w = Some phase /\
       (phase = BuildPhaseSucceeded \/ phase = BuildPhaseFailed) /\
       forall hreq res, In (EvHTTPDo hreq res) (outTrace o) ->
         exists n,
           jsonMarshal env (callbackPayload b phase (clock env n)) =
           inl (Body hreq)) /\
  (forall upd e rest, outTrace o = EvStatusUpdate upd (Some e) :: rest ->
     rest = [] /\ outErr o = Some e /\ outWorld o = w).
Proof.
  unfold buildLookup. mcases; rec_simpl;
    (split;
     [ intros phase r Hin; in_cases Hin; injection Hin as <- <-
     | intros ? ? ? Heq;
       first [discriminate Heq | injection Heq as <- <- <-; auto] ]).
  all: eexists _, _, _; split; [reflexivity|]; split; [reflexivity|].
  all: rec_simpl; split; [reflexivity|]; split; [reflexivity|].
  all: split; [reflexivity|].
  all: bool_facts.
  all: try (exfalso; congruence).
  all: split; [solve [auto] |].
  all: intros hreq res Hh; in_cases Hh; injection Hh as <- <-.
  all: unfold callbackPayload in *; rec_simpl; cbn [Body callbackRequest].
  all: eexists; eassumption.
Qed.

(** X10: a callback that was answered with success is recorded before
    anything is deleted. After the successful call the invocation issues a
    status update that carries callbackStatus = "Success". For the phase
    Failed that update is its last effect and no error is returned; for
    the phase Succeeded the deletion follows and its result is the result
    of the invocation. *)
Theorem callback_success_is_recorded env req w :
  let o := reconcile env req w in
  callbackOutcome o = Some true ->
  exists pre phase upd r post,
    outTrace o =
      (pre ++ EvSendCallback phase None :: EvStatusUpdate upd r :: post)%list /\
    CallbackStatus (Status upd) = "Success" /\
    Phase (Status upd) = phase /\
    (phase = BuildPhaseFailed -> post = [] /\ outErr o = None) /\
    (phase = BuildPhaseSucceeded ->
       exists key dr, post = [EvDelete key dr] /\ outErr o = dr).
Proof.
  mcases; rec_simpl; intros Hc; try discriminate Hc.
  all: bool_facts.
  all: eexists [_; _], _, _, _, _; split; [reflexivity|].
  all: rec_simpl; split; [reflexivity|]; split; [reflexivity|].
  all: split; [intros Hp; try congruence; auto|].
  all: intros Hp; try congruence; eauto.
Qed.

Lemma callback_success_is_recorded_witness :
  exists pre phase upd r post,
    outTrace (reconcile (Examples.calmEnv 200) Examples.key
                (Examples.mkWorld
                   (Examples.mkBuild Examples.hookSpec
                      (Examples.statusIn BuildPhaseRunning None))
                   (Some (Examples.mkJob 0 1 None)))) =
      (pre ++ EvSendCallback phase None :: EvStatusUpdate upd r :: post)%list /\
    CallbackStatus (Status upd) = "Success" /\
    Phase (Status upd) = phase /\
    (phase = BuildPhaseFailed ->
       post = [] /\
       outErr (reconcile (Examples.calmEnv 200) Examples.key
                 (Examples.mkWorld
                    (Examples.mkBuild Examples.hookSpec
                       (Examples.statusIn BuildPhaseRunning None))
                    (Some (Examples.mkJob 0 1 None)))) = None) /\
    (phase = BuildPhaseSucceeded ->
       exists key dr, post = [EvDelete key dr] /\
       outErr (reconcile (Examples.calmEnv 200) Examples.key
                 (Examples.mkWorld
                    (Examples.mkBuild Examples.hookSpec
                       (Examples.statusIn BuildPhaseRunning None))
                    (Some (Examples.mkJob 0 1 None)))) = dr).
Proof.
  apply (callback_success_is_recorded (Examples.calmEnv 200) Examples.key).
  reflexivity.
Defined.

(** ** What an invocation writes *)

Lemma storeCreate_jobs_builds env w j w' :
  storeCreate env w j = inl w' ->
  jobs w !! (jobNamespace j, jobName j) = None /\
  jobs w' = <[(jobNamespace j, jobName j) := j]> (jobs w) /\
  builds w' = builds w.
Proof.
  intros H. destruct (storeCreate_jobs _ _ _ _ H) as [H1 H2].
  apply storeCreate_inl in H. auto.
Qed.

Ltac store_shapes :=
  repeat match goal with
  | H : storeCreate _ _ _ = inl _ |- _ =>
      apply storeCreate_jobs_builds in H as (? & ? & ?)
  | H : storeUpdateStatus _ _ _ _ = inl _ |- _ =>
      apply storeUpdateStatus_inl in H as (? & ? & ? & ?)
  | H : storeDelete _ _ _ = inl _ |- _ =>
      apply storeDelete_inl in H as (? & ?)
  end.

Lemma insert_twice (m : gmap (string * string) Build) k x y :
  <[k := y]> (<[k := x]> m) = <[k := y]> m.
Proof. apply insert_insert_eq. Qed.

Lemma lookup_inserted (m : gmap (string * string) Build) k x y :
  <[k := x]> m !! k = Some y -> y = x.
Proof. rewrite lookup_insert_eq. congruence. Qed.

Lemma delete_inserted (m : gmap (string * string) Build) k x :
  delete k (<[k := x]> m) = delete k m.
Proof. apply delete_insert_eq. Qed.

Lemma reconcile_writes env req w :
  wfWorld w ->
  builds (outWorld (reconcile env req w)) = builds w \/
  (exists b st,
     builds w !! req = Some b /\ written b st /\
     builds (outWorld (reconcile env req w)) = <[req := withStatus b st]> (builds w)) \/
  (exists b,
     builds w !! req = Some b /\
     builds (outWorld (reconcile env req w)) = delete req (builds w)).
Proof.
  intros Hwf. destruct req as [ns n].
  mcases; rec_simpl; auto.
  all: match goal with
       | H : builds _ !! (?a, ?c) = Some ?b, Hw : wfWorld _ |- _ =>
           destruct (Hw a c b H) as [Hns Hn]
       end.
  all: store_shapes; rec_simpl.
  all: rewrite ?Hns, ?Hn in *.
  all: repeat match goal with
       | H : builds ?w = _ |- _ => rewrite H in *; clear H
       end.
  all: repeat match goal with
       | H : <[_ := _]> _ !! _ = Some _ |- _ => apply lookup_inserted in H; subst
       end.
  all: same_lookup.
  all: rewrite ?insert_twice, ?delete_inserted.
  all: repeat match goal with
       | H : Namespace _ = ?x |- _ => is_var x; subst x
       | H : Name _ = ?x |- _ => is_var x; subst x
       end.
  all: try (left; reflexivity).
  all: try (right; right; eexists; split; reflexivity).
  all: right; left; eexists _, _; split; [reflexivity|]; split; [|reflexivity].
  all: rec_simpl.
  all: try (exfalso; bool_facts; congruence).
  all: first [ solve [eapply WrittenRunning; [assumption | reflexivity]]
             | solve [eapply WrittenPhase; cycle 1; [reflexivity | reflexivity]]
             | solve [eapply WrittenCallback; cycle 2;
                      [reflexivity | reflexivity | auto]] ].
Qed.

(** X11: an invocation writes nothing but the status of the Build it was
    invoked for. Every other Build of the store is left as it is, no
    Build is added, and the Build of the request keeps its name, namespace,
    UID and spec. *)
Theorem reconcile_writes_status_only env req w :
  wfWorld w ->
  (forall k, k <> req ->
     builds (outWorld (reconcile env req w)) !! k = builds w !! k) /\
  (forall b', builds (outWorld (reconcile env req w)) !! req = Some b' ->
     exists b, builds w !! req = Some b /\
       Name b' = Name b /\ Namespace b' = Namespace b /\
       UID b' = UID b /\ Spec b' = Spec b).
Proof.
  intros Hwf.
  destruct (reconcile_writes env req w Hwf)
    as [-> | [(b & st & Hb & _ & ->) | (b & Hb & ->)]].
  - split; [reflexivity|]. intros b' Hb'. exists b'. auto.
  - split.
    + intros k Hk. apply lookup_insert_ne. congruence.
    + intros b' Hb'. apply lookup_inserted in Hb' as ->. exists b. auto.
  - split.
    + intros k Hk. apply lookup_delete_ne. congruence.
    + intros b' Hb'. rewrite lookup_delete_eq in Hb'. discriminate Hb'.
Qed.

Lemma reconcile_writes_status_only_witness :
  exists b, builds Runs.submitted !! Examples.key = Some b /\
    Name (Examples.mkBuild Examples.plainSpec
            (Examples.statusIn BuildPhaseRunning None)) = Name b /\
    Namespace (Examples.mkBuild Examples.plainSpec
                 (Examples.statusIn BuildPhaseRunning None)) = Namespace b /\
    UID (Examples.mkBuild Examples.plainSpec
           (Examples.statusIn BuildPhaseRunning None)) = UID b /\
    Spec (Examples.mkBuild Examples.plainSpec
            (Examples.statusIn BuildPhaseRunning None)) = Spec b.
Proof.
  apply (proj2 (reconcile_writes_status_only (Examples.calmEnv 200) Examples.key
                  Runs.submitted (mkWorld_wf _ _ _))).
  vm_compute. reflexivity.
Defined.

(** X12: an invocation never changes or removes a job. It adds at most
    one, the job [constructJob] builds for the Build of the request, under
    the key it looks jobs up by, and only when the store has no job under
    that key. *)
Theorem reconcile_adds_one_job env req w :
  let o := reconcile env req w in
  (jobs (outWorld o) = jobs w \/
   exists b job,
     buildLookup env req w = inl b /\
     constructJob (scheme env) b = inl job /\
     jobs w !! (Namespace b, jobNameOf (Name b)) = None /\
     jobs (outWorld o) = <[(Namespace b, jobNameOf (Name b)) := job]> (jobs w)) /\
  (forall k j, jobs w !! k = Some j -> jobs (outWorld o) !! k = Some j).
Proof.
  assert (H : jobs (outWorld (reconcile env req w)) = jobs w \/
   exists b job,
     buildLookup env req w = inl b /\
     constructJob (scheme env) b = inl job /\
     jobs w !! (Namespace b, jobNameOf (Name b)) = None /\
     jobs (outWorld (reconcile env req w)) =
       <[(Namespace b, jobNameOf (Name b)) := job]> (jobs w)).
  { unfold buildLookup. mcases; rec_simpl; auto.
    all: match goal with
         | H : constructJob _ _ = inl _ |- _ =>
             try destruct (constructJob_inv _ _ _ H) as (_ & Hjn & Hjns)
         | _ => idtac
         end.
    all: store_shapes.
    all: repeat match goal with
         | H : jobs ?w = _ |- _ => rewrite H in *; clear H
         end.
    all: auto.
    all: right; eexists _, _; split; [reflexivity|]; split; [eassumption|].
    all: rewrite Hjn, Hjns in *; auto. }
  cbv zeta. split; [exact H|].
  intros k j Hk. destruct H as [-> | (b & job & _ & _ & Hfree & ->)]; [exact Hk|].
  rewrite lookup_insert_ne; [exact Hk|]. intros <-.
  pose proof (eq_trans (eq_sym Hk) Hfree). discriminate.
Qed.

(** ** Status invariants *)

Lemma written_keeps_invariant b st :
  statusInvariant b -> written b st -> statusInvariant (withStatus b st).
Proof.
  intros (Hj & Hc & Ht) Hw. unfold statusInvariant.
  destruct Hw as [Hterm -> | p t Hp -> | p t c Hp Hcs ->]; cbn.
  - split; [auto|]. split; [exact Hc|].
    intros Hne. apply Ht in Hne. congruence.
  - split; [exact Hj|]. split; [exact Hc|]. intros _. exact Hp.
  - split; [exact Hj|]. split; [|intros _; exact Hp].
    destruct Hcs as [-> | ->]; auto.
Qed.

Lemma step_keeps_invariant st w :
  wfWorld w ->
  (forall k b, builds w !! k = Some b -> statusInvariant b) ->
  forall k b, builds (step st w) !! k = Some b -> statusInvariant b.
Proof.
  intros Hwf Hinv k b'. unfold step.
  assert (Hwf' : wfWorld (observe st w)) by exact Hwf.
  destruct (reconcile_writes (stepEnv st) (stepReq st) (observe st w) Hwf')
    as [-> | [(b & s & Hb & Hw & ->) | (b & Hb & ->)]]; cbn [observe builds] in *.
  - apply Hinv.
  - destruct (decide (stepReq st = k)) as [<- | Hne].
    + intros ->%lookup_inserted. apply written_keeps_invariant; [|exact Hw].
      exact (Hinv _ _ Hb).
    + rewrite lookup_insert_ne by exact Hne. apply Hinv.
  - destruct (decide (stepReq st = k)) as [<- | Hne].
    + rewrite lookup_delete_eq. discriminate.
    + rewrite lookup_delete_ne by exact Hne. apply Hinv.
Qed.

(** X13: along every run from fresh Builds the status the controller keeps
    is well formed: the job reference is empty or the name of the job of
    the Build, the callback status is empty, "Success" or "Failed", and a
    callback status is only ever recorded in a terminal phase. *)
Theorem status_stays_well_formed steps w k b :
  wfWorld w -> freshWorld w ->
  builds (run steps w) !! k = Some b ->
  statusInvariant b.
Proof.
  intros Hwf Hfresh.
  assert (Hinv : forall k b, builds w !! k = Some b -> statusInvariant b).
  { intros k0 b0 Hb. unfold statusInvariant. rewrite (Hfresh k0 b0 Hb). cbn.
    split; [auto|]. split; [auto|]. congruence. }
  clear Hfresh. revert w Hwf Hinv k b.
  induction steps as [|st steps IH]; intros w Hwf Hinv k b; [apply Hinv|].
  cbn [run]. apply IH; [apply step_wf, Hwf|].
  apply step_keeps_invariant; assumption.
Qed.

Lemma fresh_submitted : freshWorld Runs.submittedWithHook.
Proof.
  intros k b. unfold Runs.submittedWithHook, Examples.mkWorld. cbn [builds].
  intros [_ <-]%lookup_singleton_Some. reflexivity.
Qed.

Lemma status_stays_well_formed_witness :
  statusInvariant
    (Examples.mkBuild Examples.hookSpec
       {| Phase := BuildPhaseFailed; JobRef := "build-demo";
          CallbackStatus := "Success"; CompletionTime := Some 1000 |}).
Proof.
  apply (status_stays_well_formed
           [Runs.invoke Runs.quiet; Runs.invoke (Runs.reports 0 1 None)]
           Runs.submittedWithHook Examples.key).
  - apply mkWorld_wf.
  - apply fresh_submitted.
  - vm_compute. reflexivity.
Defined.

(** ** Redelivery *)

Lemma targetPhase_idempotent p js :
  targetPhase (targetPhase p js) js = targetPhase p js.
Proof.
  unfold targetPhase.
  destruct (Succeeded js >? 0); [reflexivity|].
  destruct (Failed js >? 0); reflexivity.
Qed.

Lemma constructJob_fresh sch b j :
  constructJob sch b = inl j ->
  jobNamespace j = Namespace b /\ jobName j = jobNameOf (Name b) /\
  jobStatus j = emptyJobStatus.
Proof.
  intros (v & k & _ & ->)%constructJob_shape. cbn. auto.
Qed.

Lemma lookup_deleted (m : gmap (string * string) Build) k y :
  delete k m !! k = Some y -> False.
Proof. rewrite lookup_delete_eq. discriminate. Qed.

Ltac same_job :=
  repeat match goal with
  | H1 : jobs ?w !! ?k = Some ?a, H2 : jobs ?w !! ?k = Some ?c |- _ =>
      tryif constr_eq a c then fail
      else (let Hx := fresh in
            pose proof (eq_trans (eq_sym H1) H2) as Hx;
            injection Hx as <-; clear H2)
  end.

Lemma settled_after_success env req w b' :
  wfWorld w -> readsOK env ->
  outErr (reconcile env req w) = None ->
  builds (outWorld (reconcile env req w)) !! req = Some b' ->
  (jobs (outWorld (reconcile env req w)) !! (Namespace b', jobNameOf (Name b')) = None /\
   isTerminal (Phase (Status b')) = true) \/
  (exists j,
     jobs (outWorld (reconcile env req w)) !! (Namespace b', jobNameOf (Name b')) = Some j /\
     targetPhase (Phase (Status b')) (jobStatus j) = Phase (Status b')).
Proof.
  intros Hwf [Hrb Hrj]. destruct req as [ns n].
  mcases; rec_simpl; intros Herr Hb'; try discriminate; try congruence.
  all: match goal with
       | H : builds _ !! (?a, ?c) = Some ?b, Hw : wfWorld _ |- _ =>
           destruct (Hw a c b H) as [Hns Hn]
       | _ => idtac
       end.
  all: try match goal with
       | H : constructJob _ _ = inl _ |- _ =>
           destruct (constructJob_fresh _ _ _ H) as (Hjns & Hjn & Hjst)
       end.
  all: store_shapes; rec_simpl.
  all: repeat match goal with
       | H : Namespace _ = ?x |- _ => is_var x; subst x
       | H : Name _ = ?x |- _ => is_var x; subst x
       end.
  all: repeat match goal with
       | H : builds ?w = _ |- _ => rewrite H in *; clear H
       | H : jobs ?w = _ |- _ => rewrite H in *; clear H
       end.
  all: repeat match goal with
       | H : <[_ := _]> _ !! _ = Some _ |- _ => apply lookup_inserted in H; subst
       end.
  all: same_lookup; rec_simpl.
  all: try (exfalso;
            match goal with
            | H : delete _ _ !! _ = Some _ |- _ => exact (lookup_deleted _ _ _ H)
            end).
  all: try (left; split; [eassumption | assumption]; fail).
  all: try (right; eexists; split; [eassumption|]; rewrite_answers; reflexivity).
  all: try (right; eexists; split; [eassumption|]; rewrite_answers;
            bool_facts; congruence).
  all: right; eexists; rewrite Hjns, Hjn; split; [apply lookup_insert_eq|].
  all: rewrite Hjst; reflexivity.
Qed.

Lemma noop_when_settled env req w :
  readsOK env ->
  (forall b, builds w !! req = Some b ->
     (jobs w !! (Namespace b, jobNameOf (Name b)) = None /\
      isTerminal (Phase (Status b)) = true) \/
     (exists j,
        jobs w !! (Namespace b, jobNameOf (Name b)) = Some j /\
        targetPhase (Phase (Status b)) (jobStatus j) = Phase (Status b))) ->
  reconcile env req w =
  {| outResult := {| Requeue := false |}; outErr := None;
     outWorld := w; outTrace := [] |}.
Proof.
  intros [Hrb Hrj] Hs.
  destruct (builds w !! req) as [b|] eqn:Hb.
  - destruct (Hs b eq_refl) as [[Hj Ht] | (j & Hj & Ht)]; clear Hs.
    + mcases; try reflexivity; try discriminate; try congruence;
        try lookup_clash; same_lookup; congruence.
    + mcases; try reflexivity; try discriminate; try congruence;
        try lookup_clash; same_lookup; same_job; bool_facts; congruence.
  - clear Hs. mcases; try reflexivity; try discriminate; try congruence;
      lookup_clash.
Qed.

(** X14: redelivery is idempotent. After an invocation that returned no
    error, a second invocation for the same request on the store it left,
    with the same jobs, does nothing: it has no effect, changes nothing and
    returns no error. In particular the callback is not sent again. *)
Theorem redelivery_is_noop env1 env2 req w :
  wfWorld w -> readsOK env1 -> readsOK env2 ->
  outErr (reconcile env1 req w) = None ->
  reconcile env2 req (outWorld (reconcile env1 req w)) =
  {| outResult := {| Requeue := false |}; outErr := None;
     outWorld := outWorld (reconcile env1 req w); outTrace := [] |}.
Proof.
  intros Hwf H1 H2 Herr. apply noop_when_settled; [exact H2|].
  intros b Hb. exact (settled_after_success env1 req w b Hwf H1 Herr Hb).
Qed.

Lemma redelivery_is_noop_witness :
  let w := Examples.mkWorld
             (Examples.mkBuild Examples.hookSpec
                (Examples.statusIn BuildPhaseRunning None))
             (Some (Examples.mkJob 0 1 None)) in
  let w' := outWorld (reconcile (Examples.calmEnv 503) Examples.key w) in
  reconcile (Examples.calmEnv 200) Examples.key w' =
  {| outResult := {| Requeue := false |}; outErr := None;
     outWorld := w'; outTrace := [] |}.
Proof.
  intros w w'.
  apply (redelivery_is_noop (Examples.calmEnv 503) (Examples.calmEnv 200)
           Examples.key w).
  - apply mkWorld_wf.
  - split; reflexivity.
  - split; reflexivity.
  - reflexivity.
Defined.


(** ** The path to the deletion *)

Ltac mcases_payload :=
  mred; unfold requestBuilt, callbackPayload in *; rec_simpl;
  repeat (destr_inner; simplify_eq; mred;
          unfold callbackPayload in *; rec_simpl).

Lemma storeUpdateStatus_inr env n w upd e :
  storeUpdateStatus env n w upd = inr e ->
  updateErr env n = Some e \/ builds w !! (Namespace upd, Name upd) = None.
Proof.
  unfold storeUpdateStatus. destruct (updateErr env n); [intros [= ->]; auto|].
  destruct (builds w !! _); [discriminate | auto].
Qed.

Lemma storeDelete_inr env w k e :
  storeDelete env w k = inr e ->
  deleteErr env = Some e \/ builds w !! k = None.
Proof.
  unfold storeDelete. destruct (deleteErr env); [intros [= ->]; auto|].
  destruct (builds w !! k); [discriminate | auto].
Qed.

Lemma lookup_inserted_None (m : gmap (string * string) Build) k x :
  <[k := x]> m !! k = None -> False.
Proof. rewrite lookup_insert_eq. discriminate. Qed.

Ltac store_refusals :=
  repeat match goal with
  | H : storeUpdateStatus _ _ _ _ = inr _ |- _ =>
      apply storeUpdateStatus_inr in H as [H | H]
  | H : storeDelete _ _ _ = inr _ |- _ =>
      apply storeDelete_inr in H as [H | H]
  end.

(** X15: the way to the deletion. When the job that is found counts a
    succeeded pod, the stored phase is not yet Succeeded, the spec has a
    callback whose request can be built and is answered with a status code
    in [200,300), and the store accepts the first status update and the
    deletion, the invocation stores the phase, sends that one request,
    records the answer and deletes the Build, whether or not the store
    accepts the record of the answer. It returns no error and leaves the
    jobs as they are: removing the job is left to the store. *)
Theorem success_path_deletes env req w b j cb hreq code :
  wfWorld w ->
  buildLookup env req w = inl b ->
  observedJob env w b = inl j ->
  0 < Succeeded (jobStatus j) ->
  Phase (Status b) <> BuildPhaseSucceeded ->
  Callback (Spec b) = Some cb ->
  updateErr env 0 = None ->
  requestBuilt env b cb BuildPhaseSucceeded (initSt w) = Some hreq ->
  httpDo env hreq = inl code -> 200 <= code < 300 ->
  deleteErr env = None ->
  let o := reconcile env req w in
  outResult o = {| Requeue := false |} /\
  outErr o = None /\
  builds (outWorld o) = delete req (builds w) /\
  jobs (outWorld o) = jobs w /\
  exists upd1 upd2 r,
    outTrace o =
      [EvStatusUpdate upd1 None; EvHTTPDo hreq (inl code);
       EvSendCallback BuildPhaseSucceeded None;
       EvStatusUpdate upd2 r; EvDelete req None] /\
    Status upd1 =
      setCompletionTime (jobCompletionTime (jobStatus j))
        (setPhase BuildPhaseSucceeded (Status b)) /\
    Status upd2 = setCallbackStatus "Success" (Status upd1).
Proof.
  intros Hwf Hb Hj Hs Hp Hcb Hu Hreq Hdo Hcode Hdel o. subst o.
  destruct req as [ns n]. unfold buildLookup in Hb.
  assert (Hgt : (Succeeded (jobStatus j) >? 0) = true) by (apply Z.gtb_lt; lia).
  assert (Hrange : (code <? 200) || (code >=? 300) = false).
  { apply orb_false_iff. split; [apply Z.ltb_ge; lia|].
    rewrite Z.geb_leb. apply Z.leb_gt. lia. }
  mcases_payload; try discriminate; try congruence.
  all: try (exfalso; bool_facts; congruence).
  all: match goal with
       | H : builds _ !! (?a, ?c) = Some ?b, Hw : wfWorld _ |- _ =>
           destruct (Hw a c b H) as [Hns Hn]
       end.
  all: repeat match goal with
       | H : Namespace _ = ?x |- _ => is_var x; subst x
       | H : Name _ = ?x |- _ => is_var x; subst x
       end.
  all: store_shapes; store_refusals; rec_simpl; try congruence.
  all: repeat match goal with
       | H : builds ?w = _ |- _ => rewrite H in *; clear H
       | H : jobs ?w = _ |- _ => rewrite H in *; clear H
       end.
  all: try (exfalso;
            match goal with
            | H : <[_ := _]> _ !! _ = None |- _ => exact (lookup_inserted_None _ _ _ H)
            end).
  all: try lookup_clash.
  all: rewrite ?delete_inserted.
  all: do 4 (split; [reflexivity|]).
  all: eexists _, _, _; split; [reflexivity|]; split; reflexivity.
Qed.


Lemma success_path_deletes_witness :
  let w := Examples.mkWorld
             (Examples.mkBuild Examples.hookSpec
                (Examples.statusIn BuildPhaseRunning None))
             (Some (Examples.mkJob 1 0 (Some 500))) in
  builds (outWorld (reconcile (Examples.calmEnv 204) Examples.key w)) =
  delete Examples.key (builds w).
Proof.
  intros w.
  apply (success_path_deletes (Examples.calmEnv 204) Examples.key w
           (Examples.mkBuild Examples.hookSpec
              (Examples.statusIn BuildPhaseRunning None))
           (Examples.mkJob 1 0 (Some 500)) Examples.hook
           (callbackRequest Examples.hook "demo/Succeeded") 204).
  - apply mkWorld_wf.
  - reflexivity.
  - reflexivity.
  - reflexivity.
  - discriminate.
  - reflexivity.
  - reflexivity.
  - reflexivity.
  - reflexivity.
  - lia.
  - reflexivity.
Defined.

Lemma completion_time_sound_witness :
  (CompletionTime (Examples.statusIn BuildPhaseFailed (Some 1000)) <> None ->
   isTerminal (Phase (Examples.statusIn BuildPhaseFailed (Some 1000))) = true) /\
  (Phase (Examples.statusIn BuildPhaseFailed (Some 1000)) = BuildPhaseFailed ->
   CompletionTime (Examples.statusIn BuildPhaseFailed (Some 1000)) <> None).
Proof.
  apply (completion_time_sound
           [Runs.invoke Runs.quiet; Runs.invoke (Runs.reports 0 1 None)]
           Runs.submitted Examples.key
           (Examples.mkBuild Examples.plainSpec
              (Examples.statusIn BuildPhaseFailed (Some 1000)))).
  - apply mkWorld_wf.
  - intros k b. unfold Runs.submitted, Examples.mkWorld. cbn [builds].
    intros [_ <-]%lookup_singleton_Some. reflexivity.
  - vm_compute. reflexivity.
Defined.
